(** * FormLab upscaling backend: the request pipeline of [backend/main.py]

    The development embeds the handler [upscale] of [backend/main.py]:
    the two request checks, the size guard in front of the inference
    stage (which Python computes in double precision), the staged try
    block with its collaborators (HTTP fetch, OpenCV, the upscaler, the
    blob store, the status store), and the failure handler.

    Double-precision arithmetic is the IEEE-754 binary64 specification of
    the standard library ([SpecFloat]).  The collaborators are the fields
    of an [env] record: every statement holds for whatever they answer.
    Exceptions are values [Raise msg], where [msg] is the text [str(e)]
    the handler reports.  The [print] calls are steps of the run like the
    others: a line that standard output cannot take raises.  The handler
    starts at [request.json], which hands over the parsed body or raises
    before the first test. *)

From Stdlib Require Import ZArith List Bool String Lia Reals Lra.
From Stdlib Require Import DecimalString.
From Stdlib Require Import Floats.SpecFloat.
Import ListNotations.

Local Open Scope string_scope.
Local Open Scope Z_scope.

(** ** Results of fallible calls *)

Inductive result (A : Type) : Type :=
| Ok (a : A)
| Raise (msg : string).

Arguments Ok {A} a.
Arguments Raise {A} msg.

Definition is_ok {A : Type} (r : result A) : bool :=
  match r with Ok _ => true | Raise _ => false end.

Definition and_then {A B : Type} (r : result A) (k : A -> result B) : result B :=
  match r with
  | Ok a => k a
  | Raise msg => Raise msg
  end.

Notation "'let?' x ':=' r 'in' k" := (and_then r (fun x => k))
  (at level 10, x name, r at level 100, k at level 200).

(** ** Python numbers *)

Module PyFloat.

(** Python's [float] is binary64: 53 bits of mantissa, infinities at
    exponent 1024. *)
Definition prec : Z := 53.
Definition emax : Z := 1024.

(** [float(n)] for an [int]: round to nearest even (exact below 2^53). *)
Definition of_int (n : Z) : spec_float := binary_normalize prec emax n 0 false.

(** [a / b] on two [int]s.  Python rounds the exact quotient correctly;
    for operands below 2^53 that is the IEEE division of the two exact
    conversions. *)
Definition truediv (a b : Z) : result spec_float :=
  if b =? 0 then Raise "division by zero"
  else Ok (SFdiv prec emax (of_int a) (of_int b)).

(** [n * x] for an [int] [n] and a [float] [x]: the int is converted
    (OverflowError when it is out of range), then the doubles are
    multiplied. *)
Definition mul_int (n : Z) (x : spec_float) : result spec_float :=
  match of_int n with
  | S754_infinity _ => Raise "int too large to convert to float"
  | fn => Ok (SFmul prec emax fn x)
  end.

(** [int(x)]: truncation toward zero. *)
Definition to_int (x : spec_float) : result Z :=
  match x with
  | S754_zero _ => Ok 0
  | S754_finite s m e =>
      Ok (cond_Zopp s (match e with
                       | Z0 => Zpos m
                       | Zpos p => Zpos m * 2 ^ Zpos p
                       | Zneg p => Zpos m / 2 ^ Zpos p
                       end))
  | S754_infinity _ => Raise "cannot convert float infinity to integer"
  | S754_nan => Raise "cannot convert float NaN to integer"
  end.

End PyFloat.

(** ** Python values of a JSON body *)

#[local] Set Warnings "-register-all".

Inductive pyval : Type :=
| PNone
| PBool (b : bool)
| PInt (n : Z)
| PFloat (x : spec_float)
| PStr (s : string)
| PList (items : list pyval)
| PDict (items : list (string * pyval)).

#[local] Set Warnings "+register-all".

(** Truth value, as [not v] tests it. *)
Definition truthy (v : pyval) : bool :=
  match v with
  | PNone => false
  | PBool b => b
  | PInt n => negb (n =? 0)
  | PFloat (S754_zero _) => false
  | PFloat _ => true
  | PStr s => negb (s =? EmptyString)%string
  | PList items => match items with [] => false | _ :: _ => true end
  | PDict items => match items with [] => false | _ :: _ => true end
  end.

(** [d.get(key)] on the items of a dict: [None] when the key is absent. *)
Fixpoint dict_get (items : list (string * pyval)) (key : string) : pyval :=
  match items with
  | [] => PNone
  | (k, v) :: rest => if (k =? key)%string then v else dict_get rest key
  end.

(** ** Images, files and the collaborators *)

Definition bytes : Type := list Byte.byte.

(** A decoded raster: [img.shape[:2]] is [(height, width)]. *)
Record image : Type := { height : Z; width : Z; pixels : list Z }.

(** What [requests.get] returns: the status line, the text of the
    HTTPError that [raise_for_status] raises for it, and the body stream
    ([stream_error] is an exception raised while iterating it). *)
Record http_response : Type := {
  status_code : Z;
  http_error_text : string;
  chunks : list bytes;
  stream_error : option string
}.

(** Values written to a status document. *)
Inductive field : Type :=
| FText (s : string)
| FServerTimestamp.

(** The outside world of one run. *)
Record env : Type := {
  environ : string -> option string;                 (* os.environ.get *)
  requests_get : pyval -> result http_response;      (* requests.get(url, stream=True) *)
  temp_name : string -> string;                      (* name picked for a suffix *)
  imread : option bytes -> option image;             (* cv2.imread: None if undecodable *)
  resample : image -> Z -> Z -> list Z;              (* INTER_AREA pixel data *)
  resize_error : string;                             (* text of cv2.error on an empty size *)
  enhance : image -> result image;                   (* upsampler.enhance(img, outscale=4) *)
  imwrite : image -> result bytes;                   (* JPEG encoding, quality 95 *)
  upload_from_filename : string -> string -> option bytes -> result unit;
  make_public : string -> string -> result unit;
  public_url : string -> string -> string;
  firestore_update : pyval -> list (string * field) -> result unit;
  py_repr : pyval -> string;                         (* str() of floats, lists, dicts *)
  stdout_write : string -> result unit               (* sys.stdout taking a printed line *)
}.

(** What a run does to its collaborators, in order. *)
Inductive event : Type :=
| Fetch (url : pyval)
| Infer (img : image)
| Upload (bucket blob_name content_type : string) (content : option bytes)
| MakePublic (bucket blob_name : string)
| StatusUpdate (doc_id : pyval) (fields : list (string * field)) (accepted : bool)
| StatusDelete (doc_id : pyval).

(** Local temporary files (name to content), the trace of events and the
    lines printed on standard output. *)
Record world : Type := {
  files : string -> option bytes;
  trace : list event;
  stdout : list string
}.

(** ** The monad of the try block: state that survives an exception *)

Definition M (A : Type) : Type := world -> result A * world.

Definition ret {A : Type} (a : A) : M A := fun w => (Ok a, w).

Definition bind {A B : Type} (m : M A) (k : A -> M B) : M B :=
  fun w =>
    match m w with
    | (Ok a, w') => k a w'
    | (Raise msg, w') => (Raise msg, w')
    end.

Notation "x <- m ;; k" := (bind m (fun x => k))
  (at level 100, m at next level, right associativity).
Notation "m ;;; k" := (bind m (fun _ => k))
  (at level 100, right associativity).

Definition lift {A : Type} (r : result A) : M A := fun w => (r, w).

Definition emit (e : event) : M unit :=
  fun w => (Ok tt, {| files := files w; trace := (trace w ++ [e])%list;
                      stdout := stdout w |}).

Definition set_file (name : string) (content : option bytes) (w : world) : world :=
  {| files := fun n => if (n =? name)%string then content else files w n;
     trace := trace w;
     stdout := stdout w |}.

(** [tempfile.NamedTemporaryFile(delete=False, suffix=...)]: a new empty
    file under a name that is not in use. *)
Definition named_temporary_file (E : env) (suffix : string) : M string :=
  fun w =>
    let name := temp_name E suffix in
    match files w name with
    | Some _ => (Raise "[Errno 17] No usable temporary file name found", w)
    | None => (Ok name, set_file name (Some []) w)
    end.

(** [f.write(chunk)] on an open temporary file. *)
Definition write (name : string) (chunk : bytes) : M unit :=
  fun w =>
    match files w name with
    | Some old => (Ok tt, set_file name (Some (old ++ chunk)%list) w)
    | None => (Ok tt, set_file name (Some chunk) w)
    end.

Fixpoint write_all (name : string) (cs : list bytes) : M unit :=
  match cs with
  | [] => ret tt
  | c :: rest => write name c ;;; write_all name rest
  end.

(** [os.remove(path)] *)
Definition os_remove (path : string) : M unit :=
  fun w =>
    match files w path with
    | Some _ => (Ok tt, set_file path None w)
    | None =>
        (Raise ("[Errno 2] No such file or directory: '" ++ path ++ "'"), w)
    end.

Definition read_file (path : string) : M (option bytes) :=
  fun w => (Ok (files w path), w).

(** [print(line)]: the line is added to standard output, unless the
    stream raises on it (UnicodeEncodeError for a character it cannot
    encode, such as a lone surrogate in the requestId; ValueError on a
    closed stream). *)
Definition py_print (E : env) (line : string) : M unit :=
  fun w =>
    match stdout_write E line with
    | Ok _ => (Ok tt, {| files := files w; trace := trace w;
                         stdout := (stdout w ++ [line])%list |})
    | Raise msg => (Raise msg, w)
    end.

(** [try: m except: pass] *)
Definition swallow {A : Type} (m : M A) : M unit :=
  fun w => (Ok tt, snd (m w)).

(** ** The size guard (step 2.5) *)

Definition max_size : Z := 4000.

(** [int(d * scale_factor)] *)
Definition scaled (d : Z) (scale_factor : spec_float) : result Z :=
  let? x := PyFloat.mul_int d scale_factor in PyFloat.to_int x.

(** The target size [(new_w, new_h)] of an oversized image. *)
Definition new_size (h w : Z) : result (Z * Z) :=
  let? scale_factor := PyFloat.truediv max_size (Z.max h w) in
  let? new_w := scaled w scale_factor in
  let? new_h := scaled h scale_factor in
  Ok (new_w, new_h).

(** [cv2.resize(img, (new_w, new_h), interpolation=cv2.INTER_AREA)]:
    OpenCV rejects an empty target size. *)
Definition cv2_resize (E : env) (img : image) (new_w new_h : Z) : result image :=
  if (new_w <=? 0) || (new_h <=? 0) then Raise (resize_error E)
  else Ok {| height := new_h; width := new_w; pixels := resample E img new_w new_h |}.

Definition guard (E : env) (img : image) : result image :=
  let h := height img in
  let w := width img in
  if max_size <? Z.max h w then
    let? size := new_size h w in
    cv2_resize E img (fst size) (snd size)
  else Ok img.

(** What [int()] makes of the exact product [d * max_size / M]: the
    product rounded down, or one below it when the product is a whole
    number (the double may fall just short of it). *)
Definition rounded_down (d M n : Z) : Prop :=
  n = d * max_size / M \/
  ((d * max_size) mod M = 0 /\ n = d * max_size / M - 1).

(** The spec's words for a new dimension: the old one times
    [maxDimension / max(h, w)], rounded to the nearest integer. *)
Definition spec_new_dim (d h w : Z) : Z :=
  (2 * d * max_size + Z.max h w) / (2 * Z.max h w).

(** ** The stages of the try block *)

(** [str(v)] as an f-string renders a value. *)
Definition py_str (E : env) (v : pyval) : string :=
  match v with
  | PNone => "None"
  | PBool true => "True"
  | PBool false => "False"
  | PInt n => NilZero.string_of_int (Z.to_int n)
  | PStr s => s
  | other => py_repr E other
  end.

Definition raise_for_status (r : http_response) : result unit :=
  if (400 <=? status_code r) && (status_code r <? 600)
  then Raise (http_error_text r) else Ok tt.

(** Step 1: download the image into a temporary [.png] file. *)
Definition download (E : env) (request_id image_url : pyval) : M string :=
  py_print E ("Downloading image for request " ++ py_str E request_id ++ "...") ;;;
  emit (Fetch image_url) ;;;
  response <- lift (requests_get E image_url) ;;
  lift (raise_for_status response) ;;;
  input_path <- named_temporary_file E ".png" ;;
  write_all input_path (chunks response) ;;;
  lift (match stream_error response with
        | Some msg => Raise msg
        | None => Ok tt
        end) ;;;
  ret input_path.

(** Step 2: [cv2.imread], then [img.shape[:2]] on the result. *)
Definition decode (E : env) (input_path : string) : M image :=
  content <- read_file input_path ;;
  lift (match imread E content with
        | Some img => Ok img
        | None => Raise "'NoneType' object has no attribute 'shape'"
        end).

(** Step 2.5: the size guard, with the line it prints after a resize. *)
Definition limit_size (E : env) (request_id : pyval) (img : image) : M image :=
  resized <- lift (guard E img) ;;
  (if max_size <? Z.max (height img) (width img)
   then py_print E ("Resized input from " ++ py_str E (PInt (width img)) ++ "x"
                    ++ py_str E (PInt (height img)) ++ " to "
                    ++ py_str E (PInt (width resized)) ++ "x"
                    ++ py_str E (PInt (height resized)) ++ " for request "
                    ++ py_str E request_id)
   else ret tt) ;;;
  ret resized.

(** Step 3: run the upscaler. *)
Definition infer (E : env) (request_id : pyval) (img : image) : M image :=
  py_print E ("Upscaling image for request " ++ py_str E request_id ++ "...") ;;;
  emit (Infer img) ;;;
  lift (enhance E img).

(** Step 4: encode the output into a temporary [.jpg] file. *)
Definition encode (E : env) (output : image) : M string :=
  output_path <- named_temporary_file E ".jpg" ;;
  encoded <- lift (imwrite E output) ;;
  write output_path encoded ;;;
  ret output_path.

Definition bucket_name (E : env) : string :=
  match environ E "STORAGE_BUCKET" with
  | Some b => b
  | None =>
      match environ E "GOOGLE_CLOUD_PROJECT" with
      | Some project_id => project_id
      | None => "None"
      end ++ ".firebasestorage.app"
  end.

(** [f"users/{user_id}/upscaled/{request_id}.jpg"] *)
Definition blob_name (E : env) (user_id request_id : pyval) : string :=
  "users/" ++ py_str E user_id ++ "/upscaled/" ++ py_str E request_id ++ ".jpg".

(** Step 5: upload the file and make the blob public. *)
Definition upload (E : env) (user_id request_id : pyval) (output_path : string)
  : M string :=
  py_print E ("Uploading result for request " ++ py_str E request_id ++ "...") ;;;
  let bucket := bucket_name E in
  let name := blob_name E user_id request_id in
  content <- read_file output_path ;;
  emit (Upload bucket name "image/jpeg" content) ;;;
  lift (upload_from_filename E bucket name content) ;;;
  emit (MakePublic bucket name) ;;;
  lift (make_public E bucket name) ;;;
  ret (public_url E bucket name).

Definition completed_fields (output_url : string) : list (string * field) :=
  [("status", FText "completed"); ("outputUrl", FText output_url);
   ("updatedAt", FServerTimestamp)].

Definition failed_fields (error : string) : list (string * field) :=
  [("status", FText "failed"); ("error", FText error);
   ("updatedAt", FServerTimestamp)].

(** [db.collection('upscale_requests').document(request_id).update(fields)] *)
Definition status_update (E : env) (request_id : pyval)
  (fields : list (string * field)) : M unit :=
  fun w =>
    let r := firestore_update E request_id fields in
    (r, {| files := files w;
           trace := (trace w ++ [StatusUpdate request_id fields (is_ok r)])%list;
           stdout := stdout w |}).

(** The body of [try:]. *)
Definition try_block (E : env) (request_id image_url user_id : pyval) : M string :=
  input_path <- download E request_id image_url ;;
  img <- decode E input_path ;;
  img <- limit_size E request_id img ;;
  output <- infer E request_id img ;;
  output_path <- encode E output ;;
  output_url <- upload E user_id request_id output_path ;;
  py_print E ("Updating Firestore for request " ++ py_str E request_id ++ "...") ;;;
  status_update E request_id (completed_fields output_url) ;;;
  os_remove input_path ;;;
  os_remove output_path ;;;
  ret output_url.

(** The body of [except Exception as e:] up to its [return]: the error
    line is printed first, outside the inner [try]; the inner bare
    [except: pass] then drops whatever the status update raises. *)
Definition record_failure (E : env) (request_id : pyval) (error : string) : M unit :=
  py_print E ("Error processing request " ++ py_str E request_id ++ ": " ++ error) ;;;
  swallow (status_update E request_id (failed_fields error)).

(** ** The handler *)

(** What [request.json] gives the handler: the parsed body, or an
    HTTPException of the framework (415 when the content type is not
    JSON, 400 when the body does not parse; a framework version that
    hands over [None] instead is [Json PNone]). *)
Inductive request : Type :=
| Json (data : pyval)
| NoJson (code : Z) (description : string).

(** What the framework gets back: a reply with its status code, the
    HTTPException of [request.json], which it answers with that
    exception's own code, or another exception that left the handler. *)
Inductive outcome : Type :=
| Reply (code : Z) (body : pyval)
| Aborted (code : Z) (description : string)
| Uncaught (exc : string).

Definition error_body (msg : string) : pyval := PDict [("error", PStr msg)].

(** [type(v).__name__] *)
Definition type_name (v : pyval) : string :=
  match v with
  | PNone => "NoneType"
  | PBool _ => "bool"
  | PInt _ => "int"
  | PFloat _ => "float"
  | PStr _ => "str"
  | PList _ => "list"
  | PDict _ => "dict"
  end.

(** The AttributeError of [data.get] on a value that is not a dict. *)
Definition no_get (v : pyval) : string :=
  "'" ++ type_name v ++ "' object has no attribute 'get'".

Definition success_body (output_url : string) : pyval :=
  PDict [("success", PBool true); ("outputUrl", PStr output_url)].

(** The view function. *)
Definition upscale (E : env) (req : request) (w : world) : outcome * world :=
  match req with
  | NoJson code description => (Aborted code description, w)
  | Json data =>
      if negb (truthy data) then (Reply 400 (error_body "No data provided"), w)
      else
        match data with
        | PDict items =>
            let request_id := dict_get items "requestId" in
            let image_url := dict_get items "imageUrl" in
            let user_id := dict_get items "userId" in
            if negb (truthy request_id) || negb (truthy image_url)
            then (Reply 400 (error_body "Missing requestId or imageUrl"), w)
            else
              match try_block E request_id image_url user_id w with
              | (Ok output_url, w') => (Reply 200 (success_body output_url), w')
              | (Raise e, w') =>
                  match record_failure E request_id e w' with
                  | (Ok _, w'') => (Reply 500 (error_body e), w'')
                  | (Raise exc, w'') => (Uncaught exc, w'')
                  end
              end
        | _ => (Uncaught (no_get data), w)
        end
  end.

(** ** Observations on a trace *)

Definition is_status_event (e : event) : bool :=
  match e with
  | StatusUpdate _ _ _ | StatusDelete _ => true
  | _ => false
  end.

(** The status-store calls of a trace, in order. *)
Definition status_events (evs : list event) : list event :=
  filter is_status_event evs.

(** The status updates the store accepted, that is, the mutations of the
    status record. *)
Definition accepted_writes (evs : list event) : list event :=
  filter (fun e => match e with StatusUpdate _ _ true => true | _ => false end) evs.

(** The blob paths uploaded to, in order. *)
Fixpoint uploaded_names (evs : list event) : list string :=
  match evs with
  | [] => []
  | Upload _ name _ _ :: rest => name :: uploaded_names rest
  | _ :: rest => uploaded_names rest
  end.

(** ** Sample collaborators and requests *)

Definition sample_image : image :=
  {| height := 2; width := 3; pixels := [10; 20; 30; 40; 50; 60] |}.

(** An environment in which the fetch answers [fetch], a non-empty file
    decodes to [sample_image] iff [decodable], and the status store
    answers [store] to every update; every other call succeeds, and
    every line is printed. *)
Definition sample_env (fetch : result http_response) (decodable : bool)
  (store : result unit) : env :=
  {| environ := fun k => if (k =? "GOOGLE_CLOUD_PROJECT")%string
                         then Some "formlab" else None;
     requests_get := fun _ => fetch;
     temp_name := fun suffix => "/tmp/tmpk3x9" ++ suffix;
     imread := fun content =>
                 match content with
                 | Some (_ :: _) => if decodable then Some sample_image else None
                 | _ => None
                 end;
     resample := fun _ new_w new_h => repeat 0 (Z.to_nat (new_w * new_h));
     resize_error := "OpenCV: error: (-215:Assertion failed) inv_scale_x > 0 in function 'resize'";
     enhance := fun img =>
                  Ok {| height := 4 * height img; width := 4 * width img;
                        pixels := pixels img |};
     imwrite := fun _ => Ok [Byte.xff; Byte.xd8];
     upload_from_filename := fun _ _ _ => Ok tt;
     make_public := fun _ _ => Ok tt;
     public_url := fun bucket name =>
                     "https://storage.googleapis.com/" ++ bucket ++ "/" ++ name;
     firestore_update := fun _ _ => store;
     py_repr := fun _ => EmptyString;
     stdout_write := fun _ => Ok tt |}.

Definition png_response : http_response :=
  {| status_code := 200; http_error_text := EmptyString;
     chunks := [[Byte.x89; Byte.x50]; [Byte.x4e; Byte.x47]];
     stream_error := None |}.

Definition not_found_response : http_response :=
  {| status_code := 404;
     http_error_text := "404 Client Error: Not Found for url: https://x/img.png";
     chunks := []; stream_error := None |}.

(** The image host answers 300 Multiple Choices, with an image as body. *)
Definition choices_response : http_response :=
  {| status_code := 300; http_error_text := EmptyString;
     chunks := [[Byte.x89; Byte.x50]; [Byte.x4e; Byte.x47]];
     stream_error := None |}.

Definition empty_world : world :=
  {| files := fun _ => None; trace := []; stdout := [] |}.

(** Every collaborator answers. *)
Definition happy_env : env := sample_env (Ok png_response) true (Ok tt).

(** The image host answers 404 and the status store is unreachable. *)
Definition offline_env : env :=
  sample_env (Ok not_found_response) true (Raise "503 The service is currently unavailable.").

(** The download succeeds, but the bytes are not an image. *)
Definition garbage_env : env := sample_env (Ok png_response) false (Ok tt).

(** Every collaborator answers, the fetch with status 300. *)
Definition choices_env : env := sample_env (Ok choices_response) true (Ok tt).

(** [happy_env] with a closed standard output: every [print] raises
    ValueError. *)
Definition mute_env : env :=
  {| environ := environ happy_env;
     requests_get := requests_get happy_env;
     temp_name := temp_name happy_env;
     imread := imread happy_env;
     resample := resample happy_env;
     resize_error := resize_error happy_env;
     enhance := enhance happy_env;
     imwrite := imwrite happy_env;
     upload_from_filename := upload_from_filename happy_env;
     make_public := make_public happy_env;
     public_url := public_url happy_env;
     firestore_update := firestore_update happy_env;
     py_repr := py_repr happy_env;
     stdout_write := fun _ =>
       Raise "I/O operation on closed file." |}.

(** [{requestId: "r1", imageUrl: "https://x/img.png", userId: "u1"}] *)
Definition full_request : pyval :=
  PDict [("requestId", PStr "r1"); ("imageUrl", PStr "https://x/img.png");
         ("userId", PStr "u1")].

(** The same request without [userId]. *)
Definition anonymous_request : pyval :=
  PDict [("requestId", PStr "r1"); ("imageUrl", PStr "https://x/img.png")].

(** An 8001 x 1 image: taller than [max_size], one pixel wide. *)
Definition thin_image : image :=
  {| height := 8001; width := 1; pixels := repeat 0 (Z.to_nat 8001) |}.

(** ** A complete run *)

(** The events of a run that gets through every stage, in order. *)
Definition pipeline_events (E : env) (request_id image_url user_id : pyval)
  (img : image) (content : option bytes) (output_url : string) (accepted : bool)
  : list event :=
  [Fetch image_url;
   Infer img;
   Upload (bucket_name E) (blob_name E user_id request_id) "image/jpeg" content;
   MakePublic (bucket_name E) (blob_name E user_id request_id);
   StatusUpdate request_id (completed_fields output_url) accepted].

(** A placeholder for the image of a run that never reached the guard. *)
Definition no_image : image := {| height := 0; width := 0; pixels := [] |}.

(** What one run of the try block, from [w] to [w'] with result [r],
    leaves behind: its events are the first [k] of [pipeline_events]; the
    stages behind each event have answered; the block returns normally
    exactly when all five events happened and the store accepted the
    write, and then the files are as before; files other than the two
    temporary ones are left alone in any case, and after an exception the
    downloaded file, if the download got that far, is still on disk. *)
Definition run_facts (E : env) (rid url uid : pyval) (w : world)
  (r : result string) (w' : world) : Prop :=
  (forall n, n <> temp_name E ".png" -> n <> temp_name E ".jpg" ->
             files w' n = files w n) /\
  exists k img content u acc,
    (k <= 5)%nat /\
    trace w' = (trace w ++ firstn k (pipeline_events E rid url uid img content u acc))%list /\
    ((2 <= k)%nat ->
     exists response raw,
       requests_get E url = Ok response /\
       imread E (Some (List.concat (chunks response))) = Some raw /\
       guard E raw = Ok img) /\
    ((3 <= k)%nat ->
     exists out enc,
       enhance E img = Ok out /\ imwrite E out = Ok enc /\ content = Some enc) /\
    (k = 5%nat ->
     u = public_url E (bucket_name E) (blob_name E uid rid) /\
     acc = is_ok (firestore_update E rid (completed_fields u))) /\
    match r with
    | Ok u' => k = 5%nat /\ acc = true /\ u' = u /\ forall n, files w' n = files w n
    | Raise e =>
        (k = 5%nat -> firestore_update E rid (completed_fields u) = Raise e) /\
        forall p w1, download E rid url w = (Ok p, w1) ->
                     exists c, files w' p = Some c
    end.

(** A 6001 x 3000 image (width x height). *)
Definition wide_image : image := {| height := 3000; width := 6001; pixels := [] |}.

(** What the guard makes of [wide_image]. *)
Definition wide_image_resized (E : env) : image :=
  {| height := 1999; width := 4000; pixels := resample E wide_image 4000 1999 |}.

(** ** Notions of the rounding analysis *)

(** A shift record [(m, round, sticky)] locates the exact value [N / D]
    between [m] and [m + 1]: on [m], below the midpoint, on it, above it. *)
Definition rec_ok (mrs : shr_record) (N D : Z) : Prop :=
  0 <= shr_m mrs /\
  match shr_r mrs, shr_s mrs with
  | false, false => N = shr_m mrs * D
  | false, true => 2 * (shr_m mrs * D) < 2 * N < (2 * shr_m mrs + 1) * D
  | true, false => 2 * N = (2 * shr_m mrs + 1) * D
  | true, true => (2 * shr_m mrs + 1) * D < 2 * N < 2 * ((shr_m mrs + 1) * D)
  end.

(** The real number a positive finite double stands for. *)
Definition F2R (m : positive) (e : Z) : R := (IZR (Zpos m) * powerRZ 2 e)%R.

(** The unit roundoff of binary64, 2^-53. *)
Definition eps : R := (/ 9007199254740992)%R.

(** Splits on what standard output answers to the line starting with
    [prefix]. *)
Ltac case_print prefix :=
  match goal with
  | |- context [stdout_write ?E (String.append prefix ?x)] =>
      destruct (stdout_write E (String.append prefix x)) as [[] | ?e]
  end.

(** Pushes [IZR] through the integer operations of a hypothesis. *)
Ltac push_IZR H :=
  repeat first [ rewrite opp_IZR in H | rewrite mult_IZR in H
               | rewrite minus_IZR in H | rewrite plus_IZR in H ].

(** * Rounding analysis of the double-precision operations *)

(** ** Digits and shifts *)

Lemma digits2_bounds p :
  2 ^ (Zpos (digits2_pos p) - 1) <= Zpos p < 2 ^ Zpos (digits2_pos p).
Proof.
  induction p as [p IH | p IH |]; simpl digits2_pos.
  - rewrite Pos2Z.inj_succ, (Pos2Z.inj_xI p).
    replace (Z.succ (Zpos (digits2_pos p)) - 1) with (Z.succ (Zpos (digits2_pos p) - 1)) by lia.
    rewrite !Z.pow_succ_r by lia. lia.
  - rewrite Pos2Z.inj_succ, (Pos2Z.inj_xO p).
    replace (Z.succ (Zpos (digits2_pos p)) - 1) with (Z.succ (Zpos (digits2_pos p) - 1)) by lia.
    rewrite !Z.pow_succ_r by lia. lia.
  - simpl. lia.
Qed.

Lemma digits2_unique p d :
  2 ^ (d - 1) <= Zpos p < 2 ^ d -> Zpos (digits2_pos p) = d.
Proof.
  intros [Hl Hu]. pose proof (digits2_bounds p) as [Bl Bu].
  set (c := Zpos (digits2_pos p)) in *.
  assert (0 < c) by (subst c; lia).
  destruct (Z.lt_trichotomy c d) as [Hlt | [Heq | Hgt]]; [exfalso | exact Heq | exfalso].
  - assert (2 ^ c <= 2 ^ (d - 1)) by (apply Z.pow_le_mono_r; lia). lia.
  - assert (0 <= d \/ d < 0) as [Hd | Hd] by lia.
    + assert (2 ^ d <= 2 ^ (c - 1)) by (apply Z.pow_le_mono_r; lia). lia.
    + rewrite (Z.pow_neg_r 2 d) in Hu by lia. lia.
Qed.

Lemma shr_1_ok mrs N D :
  0 < D -> rec_ok mrs N D -> rec_ok (shr_1 mrs) N (2 * D).
Proof.
  intros HD [Hm H]. destruct mrs as [m r s].
  cbn [shr_m shr_r shr_s] in Hm, H.
  destruct m as [| [p | p |] | p]; try lia;
    destruct r, s; unfold rec_ok, shr_1; cbn [shr_m shr_r shr_s orb];
    rewrite ?(Pos2Z.inj_xI p), ?(Pos2Z.inj_xO p) in *; split; try lia; nia.
Qed.

Lemma iter_shr_1_ok p : forall mrs N D,
  0 < D -> rec_ok mrs N D -> rec_ok (iter_pos shr_1 p mrs) N (2 ^ Zpos p * D).
Proof.
  induction p as [p IH | p IH |]; intros mrs N D HD H; simpl iter_pos.
  - assert (E : 2 ^ Zpos p~1 * D = 2 ^ Zpos p * (2 ^ Zpos p * (2 * D))).
    { rewrite (Pos2Z.inj_xI p), Z.pow_add_r, Z.pow_1_r by lia.
      replace (2 * Zpos p) with (Zpos p + Zpos p) by lia. rewrite Z.pow_add_r by lia. ring. }
    rewrite E. assert (0 < 2 ^ Zpos p) by (apply Z.pow_pos_nonneg; lia).
    apply IH; [nia|]. apply IH; [lia|]. now apply shr_1_ok.
  - assert (E : 2 ^ Zpos p~0 * D = 2 ^ Zpos p * (2 ^ Zpos p * D)).
    { rewrite (Pos2Z.inj_xO p). replace (2 * Zpos p) with (Zpos p + Zpos p) by lia.
      rewrite Z.pow_add_r by lia. ring. }
    rewrite E. assert (0 < 2 ^ Zpos p) by (apply Z.pow_pos_nonneg; lia).
    apply IH; [nia|]. now apply IH.
  - change (2 ^ 1) with 2. now apply shr_1_ok.
Qed.

Lemma shr_ok mrs e n N D :
  0 <= n -> 0 < D -> rec_ok mrs N D ->
  exists mrs', shr mrs e n = (mrs', e + n) /\ rec_ok mrs' N (2 ^ n * D).
Proof.
  intros Hn HD H. destruct n as [| p | p]; try lia.
  - exists mrs. split; [unfold shr; now rewrite Z.add_0_r|].
    now rewrite Z.pow_0_r, Z.mul_1_l.
  - exists (iter_pos shr_1 p mrs). split; [reflexivity|]. now apply iter_shr_1_ok.
Qed.

Lemma rec_ok_floor mrs N D :
  0 < D -> rec_ok mrs N D -> shr_m mrs * D <= N < (shr_m mrs + 1) * D.
Proof.
  intros HD [Hm H]. destruct (shr_r mrs), (shr_s mrs); nia.
Qed.

Lemma round_ok mrs N D :
  0 < D -> rec_ok mrs N D ->
  let m := round_nearest_even (shr_m mrs) (loc_of_shr_record mrs) in
  shr_m mrs <= m <= shr_m mrs + 1 /\ 2 * Z.abs (m * D - N) <= D.
Proof.
  intros HD [Hm H]. destruct mrs as [m r s].
  cbn [shr_m shr_r shr_s] in Hm, H.
  destruct r, s; cbn [round_nearest_even loc_of_shr_record shr_m];
    try destruct (Z.even m); split; try lia; nia.
Qed.

Lemma fexp_normal e : -1074 <= e - 53 -> fexp 53 1024 e = e - 53.
Proof. unfold fexp, emin. lia. Qed.

Lemma shr_m_of_loc m l : shr_m (shr_record_of_loc m l) = m.
Proof. destruct l as [| []]; reflexivity. Qed.

Lemma round_aux_spec mx ex l N D :
  0 < D ->
  rec_ok (shr_record_of_loc (Zpos mx) l) N D ->
  53 <= Zpos (digits2_pos mx) ->
  -1074 <= Zpos (digits2_pos mx) + ex - 53 ->
  Zpos (digits2_pos mx) + ex - 52 <= 971 ->
  exists mF k,
    binary_round_aux 53 1024 false (Zpos mx) ex l = S754_finite false mF (ex + k) /\
    Zpos (digits2_pos mx) - 53 <= k <= Zpos (digits2_pos mx) - 52 /\
    2 ^ 52 <= Zpos mF < 2 ^ 53 /\
    2 * Z.abs (Zpos mF * 2 ^ k * D - N) <= 2 ^ k * D.
Proof.
  intros HD R0 Hdg Hlo Hhi.
  pose proof (digits2_bounds mx) as Bmx.
  set (dg := Zpos (digits2_pos mx)) in *.
  unfold binary_round_aux, shr_fexp. cbn [Zdigits2]. fold dg.
  rewrite fexp_normal by lia.
  replace (dg + ex - 53 - ex) with (dg - 53) by lia.
  destruct (shr_ok (shr_record_of_loc (Zpos mx) l) ex (dg - 53) N D)
    as [mrs1 [E1 R1]]; [lia | lia | exact R0 |].
  rewrite E1.
  set (P := 2 ^ (dg - 53)) in *.
  assert (HP : 0 < P) by (apply Z.pow_pos_nonneg; lia).
  assert (HP52 : 2 ^ (dg - 1) = 2 ^ 52 * P).
  { unfold P. rewrite <- Z.pow_add_r by lia. f_equal. lia. }
  assert (HP53 : 2 ^ dg = 2 ^ 53 * P).
  { unfold P. rewrite <- Z.pow_add_r by lia. f_equal. lia. }
  pose proof (rec_ok_floor _ _ _ HD R0) as F0. rewrite shr_m_of_loc in F0.
  assert (HPD : 0 < P * D) by nia.
  pose proof (rec_ok_floor _ _ _ HPD R1) as F1.
  pose proof (round_ok _ _ _ HPD R1) as [Hm2 Herr].
  set (m1 := shr_m mrs1) in *.
  set (m2 := round_nearest_even m1 (loc_of_shr_record mrs1)) in *.
  assert (Hm1 : 2 ^ 52 <= m1 < 2 ^ 53).
  { split.
    - assert ((m1 + 1) * P > 2 ^ 52 * P) by nia. nia.
    - assert (m1 * P < 2 ^ 53 * P) by nia. nia. }
  assert (Hcase : m2 < 2 ^ 53 \/ m2 = 2 ^ 53) by lia.
  destruct Hcase as [Hlt | Heq].
  - destruct m2 as [| q | q] eqn:Em2; try lia.
    assert (Hq : Zpos (digits2_pos q) = 53) by (apply digits2_unique; lia).
    cbn [Zdigits2]. rewrite Hq.
    rewrite fexp_normal by lia.
    replace (53 + (ex + (dg - 53)) - 53 - (ex + (dg - 53))) with 0 by lia.
    cbn [shr shr_record_of_loc shr_m].
    replace (ex + (dg - 53) <=? 1024 - 53) with true by (symmetry; apply Z.leb_le; lia).
    exists q, (dg - 53). split; [reflexivity|]. split; [lia|]. split; [lia|].
    fold P. replace (Zpos q * P * D - N) with (Zpos q * (P * D) - N) by ring.
    exact Herr.
  - rewrite Heq. change (Zdigits2 (2 ^ 53)) with 54.
    rewrite fexp_normal by lia.
    replace (54 + (ex + (dg - 53)) - 53 - (ex + (dg - 53))) with 1 by lia.
    change (shr (shr_record_of_loc (2 ^ 53) loc_Exact) (ex + (dg - 53)) 1)
      with ({| shr_m := 2 ^ 52; shr_r := false; shr_s := false |}, ex + (dg - 53) + 1).
    cbn [shr_m]. change (2 ^ 52) with (Zpos 4503599627370496) at 1.
    cbv iota beta.
    replace (ex + (dg - 53) + 1 <=? 1024 - 53) with true by (symmetry; apply Z.leb_le; lia).
    exists 4503599627370496%positive, (dg - 52).
    split; [f_equal; lia|]. split; [lia|]. split; [lia|].
    replace (2 ^ (dg - 52)) with (2 * P).
    2:{ unfold P. replace (dg - 52) with (1 + (dg - 53)) by lia.
        rewrite Z.pow_add_r by lia. reflexivity. }
    rewrite Heq in Herr. change (2 ^ 53) with 9007199254740992 in Herr.
    nia.
Qed.

Lemma round_aux_exact mx ex :
  Zpos (digits2_pos mx) = 53 -> -1074 <= ex <= 971 ->
  binary_round_aux 53 1024 false (Zpos mx) ex loc_Exact = S754_finite false mx ex.
Proof.
  intros Hdg Hex. unfold binary_round_aux, shr_fexp. cbn [Zdigits2]. rewrite Hdg.
  rewrite fexp_normal by lia.
  replace (53 + ex - 53 - ex) with 0 by lia.
  cbn [shr shr_record_of_loc shr_m loc_of_shr_record round_nearest_even Zdigits2].
  rewrite Hdg, fexp_normal by lia.
  replace (53 + ex - 53 - ex) with 0 by lia.
  cbn [shr shr_m].
  replace (ex <=? 1024 - 53) with true by (symmetry; apply Z.leb_le; lia).
  reflexivity.
Qed.

Lemma iter_xO_mul p d : Zpos (Pos.iter xO p d) = Zpos p * 2 ^ Zpos d.
Proof.
  induction d as [| d IH] using Pos.peano_ind.
  - simpl. lia.
  - rewrite Pos.iter_succ, Pos2Z.inj_succ, Z.pow_succ_r by lia.
    rewrite (Pos2Z.inj_xO (Pos.iter xO p d)), IH. ring.
Qed.

Lemma of_int_spec n :
  0 < n < 2 ^ 53 ->
  exists mn en,
    binary_normalize 53 1024 n 0 false = S754_finite false mn en /\
    2 ^ 52 <= Zpos mn < 2 ^ 53 /\ -52 <= en <= 0 /\ Zpos mn = n * 2 ^ (- en).
Proof.
  intros Hn. destruct n as [| p | p]; try lia.
  pose proof (digits2_bounds p) as Bp.
  set (dg := Zpos (digits2_pos p)) in *.
  assert (Hdg : 1 <= dg <= 53).
  { split; [unfold dg; lia|].
    destruct (Z_le_gt_dec dg 53) as [Hle | Hgt]; [exact Hle | exfalso].
    assert (2 ^ 53 <= 2 ^ (dg - 1)) by (apply Z.pow_le_mono_r; lia). lia. }
  unfold binary_normalize, binary_round. fold dg.
  rewrite Z.add_0_r, fexp_normal by lia.
  unfold shl_align. rewrite Z.sub_0_r.
  destruct (dg - 53) as [| q | q] eqn:Eq; try lia.
  - rewrite round_aux_exact by (fold dg; lia).
    exists p, 0. change (2 ^ (- 0)) with 1. repeat split; try lia.
    replace (dg - 1) with 52 in Bp by lia. lia.
  - assert (Hm : Zpos (Pos.iter xO p q) = Zpos p * 2 ^ Zpos q) by apply iter_xO_mul.
    assert (Hs : 2 ^ 52 <= Zpos (Pos.iter xO p q) < 2 ^ 53).
    { rewrite Hm. replace 52 with ((dg - 1) + Zpos q) by lia.
      replace 53 with (dg + Zpos q) by lia.
      rewrite !Z.pow_add_r by lia.
      assert (0 < 2 ^ Zpos q) by (apply Z.pow_pos_nonneg; lia). nia. }
    rewrite round_aux_exact by (try apply digits2_unique; lia).
    exists (Pos.iter xO p q), (Zneg q). repeat split; try lia. exact Hm.
Qed.

Lemma new_location_ok q r D :
  0 <= q -> 0 <= r < D ->
  rec_ok (shr_record_of_loc q (new_location D r)) (q * D + r) D.
Proof.
  intros Hq Hr. unfold new_location, new_location_even, new_location_odd.
  destruct (Z.even D) eqn:Ev.
  - apply Z.even_spec in Ev. destruct Ev as [c Hc].
    destruct (Z.eqb_spec r 0) as [-> | Hr0].
    + unfold rec_ok; cbn [shr_record_of_loc shr_m shr_r shr_s]; split; lia.
    + destruct (Z.compare_spec (2 * r) D); unfold rec_ok;
        cbn [shr_record_of_loc shr_m shr_r shr_s]; split; lia.
  - assert (Od : Z.odd D = true) by (rewrite <- Z.negb_even, Ev; reflexivity).
    apply Z.odd_spec in Od. destruct Od as [c Hc].
    destruct (Z.eqb_spec r 0) as [-> | Hr0].
    + unfold rec_ok; cbn [shr_record_of_loc shr_m shr_r shr_s]; split; lia.
    + destruct (Z.compare_spec (2 * r + 1) D); unfold rec_ok;
        cbn [shr_record_of_loc shr_m shr_r shr_s]; split; lia.
Qed.

Lemma SFdiv_spec mA eA mB eB :
  2 ^ 52 <= Zpos mA < 2 ^ 53 -> 2 ^ 52 <= Zpos mB < 2 ^ 53 ->
  -1020 <= eA - eB - 53 <= 960 ->
  exists mF k,
    SFdiv 53 1024 (S754_finite false mA eA) (S754_finite false mB eB)
      = S754_finite false mF (eA - eB - 53 + k) /\
    0 <= k <= 2 /\
    2 ^ 52 <= Zpos mF < 2 ^ 53 /\
    2 * Z.abs (Zpos mF * 2 ^ k * Zpos mB - Zpos mA * 2 ^ 53) <= 2 ^ k * Zpos mB.
Proof.
  intros HA HB He.
  assert (DA : Zpos (digits2_pos mA) = 53) by (apply digits2_unique; lia).
  assert (DB : Zpos (digits2_pos mB) = 53) by (apply digits2_unique; lia).
  unfold SFdiv, SFdiv_core_binary. cbn [Zdigits2 xorb]. rewrite DA, DB.
  replace (53 + eA - (53 + eB)) with (eA - eB) by lia.
  rewrite fexp_normal by lia.
  rewrite Z.min_l by lia.
  replace (eA - eB - (eA - eB - 53)) with 53 by lia.
  rewrite Z.shiftl_mul_pow2 by lia.
  pose proof (Z_div_mod (Zpos mA * 2 ^ 53) (Zpos mB) eq_refl) as Hdm.
  destruct (Z.div_eucl (Zpos mA * 2 ^ 53) (Zpos mB)) as [q r].
  destruct Hdm as [Hqr Hr].
  assert (Hq : 2 ^ 52 <= q < 2 ^ 54) by (change (2 ^ 54) with (2 * 2 ^ 53); nia).
  destruct q as [| q | q]; try lia.
  assert (Hdq : 53 <= Zpos (digits2_pos q) <= 54).
  { pose proof (digits2_bounds q) as Bq. set (dq := Zpos (digits2_pos q)) in *.
    split.
    - destruct (Z_le_gt_dec 53 dq) as [Hle | Hgt]; [exact Hle | exfalso].
      assert (2 ^ dq <= 2 ^ 52) by (apply Z.pow_le_mono_r; lia). lia.
    - destruct (Z_le_gt_dec dq 54) as [Hle | Hgt]; [exact Hle | exfalso].
      assert (2 ^ 54 <= 2 ^ (dq - 1)) by (apply Z.pow_le_mono_r; lia). lia. }
  destruct (round_aux_spec q (eA - eB - 53) (new_location (Zpos mB) r)
              (Zpos mA * 2 ^ 53) (Zpos mB)) as [mF [k [E [Hk [HmF Herr]]]]];
    try lia.
  { rewrite Hqr, (Z.mul_comm (Zpos mB)). apply new_location_ok; lia. }
  rewrite E. exists mF, k. repeat split; try lia.
Qed.

Lemma SFmul_spec mx ex my ey :
  2 ^ 52 <= Zpos mx < 2 ^ 53 -> 2 ^ 52 <= Zpos my < 2 ^ 53 ->
  -1020 <= ex + ey <= 910 ->
  exists mY k,
    SFmul 53 1024 (S754_finite false mx ex) (S754_finite false my ey)
      = S754_finite false mY (ex + ey + k) /\
    52 <= k <= 54 /\
    2 ^ 52 <= Zpos mY < 2 ^ 53 /\
    2 * Z.abs (Zpos mY * 2 ^ k - Zpos mx * Zpos my) <= 2 ^ k.
Proof.
  intros Hx Hy He.
  unfold SFmul. cbn [xorb].
  assert (HP : 2 ^ 104 <= Zpos (mx * my) < 2 ^ 106).
  { rewrite Pos2Z.inj_mul. change (2 ^ 104) with (2 ^ 52 * 2 ^ 52).
    change (2 ^ 106) with (2 ^ 53 * 2 ^ 53). nia. }
  assert (Hd : 105 <= Zpos (digits2_pos (mx * my)) <= 106).
  { pose proof (digits2_bounds (mx * my)) as Bq.
    set (dq := Zpos (digits2_pos (mx * my))) in *.
    split.
    - destruct (Z_le_gt_dec 105 dq) as [Hle | Hgt]; [exact Hle | exfalso].
      assert (2 ^ dq <= 2 ^ 104) by (apply Z.pow_le_mono_r; lia). lia.
    - destruct (Z_le_gt_dec dq 106) as [Hle | Hgt]; [exact Hle | exfalso].
      assert (2 ^ 106 <= 2 ^ (dq - 1)) by (apply Z.pow_le_mono_r; lia). lia. }
  destruct (round_aux_spec (mx * my) (ex + ey) loc_Exact (Zpos (mx * my)) 1)
    as [mY [k [E [Hk [HmY Herr]]]]]; try lia.
  { unfold rec_ok; cbn [shr_record_of_loc shr_m shr_r shr_s]; split; lia. }
  rewrite E. exists mY, k. repeat split; lia.
Qed.

(** ** From integers to real numbers *)

Local Open Scope R_scope.

Lemma pow2_pos e : 0 < powerRZ 2 e.
Proof. apply powerRZ_lt. lra. Qed.

Lemma pow2_add a b : powerRZ 2 (a + b) = powerRZ 2 a * powerRZ 2 b.
Proof. apply powerRZ_add. lra. Qed.

Lemma IZR_pow2 k : (0 <= k)%Z -> IZR (2 ^ k) = powerRZ 2 k.
Proof.
  intros Hk. destruct k as [| p | p]; try lia.
  - simpl. reflexivity.
  - exact (Zpower_pos_powerRZ 2 p).
Qed.

Lemma pow2_opp k : powerRZ 2 (- k) * powerRZ 2 k = 1.
Proof. rewrite <- pow2_add. replace (- k + k)%Z with 0%Z by lia. reflexivity. Qed.

Lemma to_int_spec m e :
  exists z, PyFloat.to_int (S754_finite false m e) = Ok z /\
            IZR z <= F2R m e < IZR z + 1.
Proof.
  unfold PyFloat.to_int, F2R. cbn [cond_Zopp]. eexists. split; [reflexivity|].
  destruct e as [| p | p].
  - simpl powerRZ. lra.
  - rewrite mult_IZR, (IZR_pow2 (Zpos p)) by lia. lra.
  - pose proof (pow2_opp (Zpos p)) as Hc. change (- Zpos p)%Z with (Zneg p) in Hc.
    pose proof (pow2_pos (Zneg p)) as Hc0.
    rewrite <- (IZR_pow2 (Zpos p)) in Hc by lia.
    assert (HP : (0 < 2 ^ Zpos p)%Z) by (apply Z.pow_pos_nonneg; lia).
    set (P := (2 ^ Zpos p)%Z) in *.
    set (c := powerRZ 2 (Zneg p)) in *.
    pose proof (Z.mul_div_le (Zpos m) P HP) as Hl.
    pose proof (Z.mul_succ_div_gt (Zpos m) P HP) as Hu.
    set (z := (Zpos m / P)%Z) in *.
    apply IZR_le in Hl. apply IZR_lt in Hu.
    rewrite mult_IZR in Hl, Hu. rewrite succ_IZR in Hu.
    assert (E1 : IZR z = IZR P * IZR z * c) by (rewrite (Rmult_comm (IZR P)), Rmult_assoc, (Rmult_comm (IZR P)), Hc; ring).
    assert (E2 : IZR z + 1 = IZR P * (IZR z + 1) * c) by (rewrite (Rmult_comm (IZR P)), Rmult_assoc, (Rmult_comm (IZR P)), Hc; ring).
    split.
    + rewrite E1. apply Rmult_le_compat_r; lra.
    + rewrite E2. apply Rmult_lt_compat_r; lra.
Qed.

Lemma bridge mF k N D s :
  (0 <= k)%Z -> (0 < D)%Z -> (2 ^ 52 <= Zpos mF)%Z -> 0 < s ->
  (2 * Z.abs (Zpos mF * 2 ^ k * D - N) <= 2 ^ k * D)%Z ->
  Rabs (IZR (Zpos mF) * IZR (2 ^ k) * IZR D * s - IZR N * s)
    <= eps * (IZR (Zpos mF) * IZR (2 ^ k) * IZR D * s).
Proof.
  intros Hk HD Hm Hs H.
  assert (HP : (0 < 2 ^ k)%Z) by (apply Z.pow_pos_nonneg; lia).
  set (P := (2 ^ k)%Z) in *.
  assert (H1 : (- (P * D) <= 2 * (Zpos mF * P * D - N) <= P * D)%Z) by lia.
  assert (H2 : (4503599627370496 * (P * D) <= Zpos mF * P * D)%Z).
  { change (2 ^ 52)%Z with 4503599627370496%Z in Hm. nia. }
  destruct H1 as [H1a H1b].
  apply IZR_le in H1a, H1b, H2.
  push_IZR H1a. push_IZR H1b. push_IZR H2.
  set (X := IZR (Zpos mF) * IZR P * IZR D) in *.
  set (n := IZR N) in *.
  set (pd := IZR P * IZR D) in *.
  unfold eps.
  replace (X * s - n * s) with ((X - n) * s) by ring.
  rewrite Rabs_mult, (Rabs_pos_eq s) by lra.
  rewrite <- Rmult_assoc. apply Rmult_le_compat_r; [lra|].
  apply Rabs_le. lra.
Qed.

Local Close Scope R_scope.

Lemma Rabs_bounds x y : (Rabs x <= y -> - y <= x <= y)%R.
Proof. unfold Rabs. destruct (Rcase_abs x); lra. Qed.

(** ** The two roundings of [int(d * (max_size / M))] *)

(** The factor is within one unit roundoff of [max_size / M], and the
    product within one unit roundoff of [d] times the factor. *)
Lemma scaled_value d M :
  1 <= d <= M -> max_size < M < 2 ^ 31 ->
  exists mF eF mY eY,
    PyFloat.truediv max_size M = Ok (S754_finite false mF eF) /\
    PyFloat.mul_int d (S754_finite false mF eF) = Ok (S754_finite false mY eY) /\
    (Rabs (F2R mF eF * IZR M - 4000) <= eps * (F2R mF eF * IZR M))%R /\
    (Rabs (F2R mY eY - IZR d * F2R mF eF) <= eps * F2R mY eY)%R.
Proof.
  unfold max_size. intros Hd HM.
  assert (H31 : 2 ^ 31 < 2 ^ 53) by (apply Z.pow_lt_mono_r; lia).
  destruct (of_int_spec M) as [mB [eB [EB [HmB [HeB HvB]]]]]; [lia|].
  destruct (of_int_spec d) as [md [ed [Ed [Hmd [Hed Hvd]]]]]; [lia|].
  destruct (SFdiv_spec 8796093022208000 (-41) mB eB)
    as [mF [kF [EF [HkF [HmF HerrF]]]]]; try lia.
  destruct (SFmul_spec md ed mF (-41 - eB - 53 + kF))
    as [mY [kY [EY [HkY [HmY HerrY]]]]]; try lia.
  exists mF, (-41 - eB - 53 + kF), mY, (ed + (-41 - eB - 53 + kF) + kY).
  split.
  { unfold PyFloat.truediv, PyFloat.of_int, PyFloat.prec, PyFloat.emax.
    replace (M =? 0) with false by (symmetry; apply Z.eqb_neq; lia).
    rewrite EB.
    change (binary_normalize 53 1024 4000 0 false)
      with (S754_finite false 8796093022208000 (-41)).
    now rewrite EF. }
  split.
  { unfold PyFloat.mul_int, PyFloat.of_int, PyFloat.prec, PyFloat.emax.
    now rewrite Ed, EY. }
  assert (HsB : (IZR (Zpos mB) = IZR M * powerRZ 2 (- eB))%R).
  { rewrite HvB, mult_IZR, IZR_pow2 by lia. reflexivity. }
  assert (Hsd : (IZR (Zpos md) = IZR d * powerRZ 2 (- ed))%R).
  { rewrite Hvd, mult_IZR, IZR_pow2 by lia. reflexivity. }
  split.
  - pose proof (bridge mF kF (8796093022208000 * 2 ^ 53) (Zpos mB) (powerRZ 2 (-94))
                  ltac:(lia) ltac:(lia) ltac:(lia) (pow2_pos _) HerrF) as B.
    assert (E1 : (F2R mF (-41 - eB - 53 + kF) * IZR M
                  = IZR (Zpos mF) * IZR (2 ^ kF) * IZR (Zpos mB) * powerRZ 2 (-94))%R).
    { unfold F2R. rewrite HsB, IZR_pow2 by lia.
      replace (-41 - eB - 53 + kF) with (-94 + (- eB + kF)) by lia.
      rewrite !pow2_add. ring. }
    assert (E2 : (IZR (8796093022208000 * 2 ^ 53) * powerRZ 2 (-94) = 4000)%R).
    { pose proof (pow2_opp 94) as H94. rewrite <- (IZR_pow2 94) in H94 by lia.
      change (- (94))%Z with (-94)%Z in H94.
      change (8796093022208000 * 2 ^ 53) with (4000 * 2 ^ 94).
      rewrite mult_IZR, Rmult_assoc, (Rmult_comm (IZR (2 ^ 94))), H94. ring. }
    rewrite E1. rewrite E2 in B. exact B.
  - pose proof (bridge mY kY (Zpos md * Zpos mF) 1 (powerRZ 2 (ed + (-41 - eB - 53 + kF)))
                  ltac:(lia) ltac:(lia) ltac:(lia) (pow2_pos _)) as B.
    rewrite !Z.mul_1_r in B. specialize (B HerrY).
    assert (E1 : (F2R mY (ed + (-41 - eB - 53 + kF) + kY)
                  = IZR (Zpos mY) * IZR (2 ^ kY) * 1 * powerRZ 2 (ed + (-41 - eB - 53 + kF)))%R).
    { unfold F2R. rewrite IZR_pow2, !pow2_add by lia. ring. }
    assert (E2 : (IZR (Zpos md * Zpos mF) * powerRZ 2 (ed + (-41 - eB - 53 + kF))
                  = IZR d * F2R mF (-41 - eB - 53 + kF))%R).
    { unfold F2R. rewrite mult_IZR, Hsd, (pow2_add ed).
      pose proof (pow2_opp ed) as Ho.
      replace (IZR d * powerRZ 2 (- ed) * IZR (Zpos mF)
               * (powerRZ 2 ed * powerRZ 2 (-41 - eB - 53 + kF)))%R
        with (IZR d * (powerRZ 2 (- ed) * powerRZ 2 ed)
              * (IZR (Zpos mF) * powerRZ 2 (-41 - eB - 53 + kF)))%R by ring.
      rewrite Ho. ring. }
    rewrite E1. rewrite E2 in B. exact B.
Qed.

(** The computed dimension brackets the exact product [d * max_size / M]:
    it is that product rounded down, and not more than one below it. *)
Lemma scaled_bounds d M :
  1 <= d <= M -> max_size < M < 2 ^ 31 ->
  exists f d',
    PyFloat.truediv max_size M = Ok f /\ scaled d f = Ok d' /\
    d' * M <= d * max_size <= (d' + 1) * M.
Proof.
  intros Hd HM.
  destruct (scaled_value d M Hd HM) as [mF [eF [mY [eY [Ef [Ey [R1 R2]]]]]]].
  destruct (to_int_spec mY eY) as [z [Ez [Hz1 Hz2]]].
  exists (S754_finite false mF eF), z.
  split; [exact Ef|]. split; [unfold scaled; rewrite Ey; exact Ez|].
  unfold max_size in *. change (2 ^ 31) with 2147483648 in HM.
  assert (HdR : (1 <= IZR d <= 2147483648)%R) by (split; apply IZR_le; lia).
  assert (HMR : (4000 < IZR M)%R) by (apply IZR_lt; lia).
  set (f := F2R mF eF) in *. set (y := F2R mY eY) in *.
  unfold eps in R1, R2.
  apply Rabs_bounds in R1. apply Rabs_bounds in R2.
  set (X := (f * IZR M)%R) in *.
  assert (HY : ((1 - / 9007199254740992) * (y * IZR M) <= IZR d * X
                <= (1 + / 9007199254740992) * (y * IZR M))%R).
  { unfold X. split.
    - replace (IZR d * (f * IZR M))%R with ((IZR d * f) * IZR M)%R by ring.
      rewrite <- Rmult_assoc. apply Rmult_le_compat_r; lra.
    - replace (IZR d * (f * IZR M))%R with ((IZR d * f) * IZR M)%R by ring.
      rewrite <- Rmult_assoc. apply Rmult_le_compat_r; lra. }
  assert (HW : ((1 - / 9007199254740992) * (IZR d * X) <= 4000 * IZR d
                <= (1 + / 9007199254740992) * (IZR d * X))%R).
  { split.
    - replace ((1 - / 9007199254740992) * (IZR d * X))%R
        with (IZR d * ((1 - / 9007199254740992) * X))%R by ring.
      rewrite (Rmult_comm 4000). apply Rmult_le_compat_l; lra.
    - replace ((1 + / 9007199254740992) * (IZR d * X))%R
        with (IZR d * ((1 + / 9007199254740992) * X))%R by ring.
      rewrite (Rmult_comm 4000). apply Rmult_le_compat_l; lra. }
  set (W := (IZR d * X)%R) in *. set (V := (y * IZR M)%R) in *.
  split.
  - destruct (Z_le_gt_dec (z * M) (d * 4000)) as [Hle | Hgt]; [exact Hle | exfalso].
    assert (Hg : (d * 4000 + 1 <= z * M)%Z) by lia.
    apply IZR_le in Hg. push_IZR Hg.
    assert (HV : (IZR z * IZR M <= V)%R) by (unfold V; apply Rmult_le_compat_r; lra).
    lra.
  - destruct (Z_le_gt_dec (d * 4000) ((z + 1) * M)) as [Hle | Hgt]; [exact Hle | exfalso].
    assert (Hg : ((z + 1) * M <= d * 4000 - 1)%Z) by lia.
    apply IZR_le in Hg. push_IZR Hg.
    assert (HV : (V <= (IZR z + 1) * IZR M)%R) by (unfold V; apply Rmult_le_compat_r; lra).
    lra.
Qed.

(** * The size guard *)

(** Both target dimensions bracket the exact scaled values. *)
Lemma new_size_bounds h w :
  1 <= h -> 1 <= w -> max_size < Z.max h w < 2 ^ 31 ->
  exists new_w new_h,
    new_size h w = Ok (new_w, new_h) /\
    new_w * Z.max h w <= w * max_size <= (new_w + 1) * Z.max h w /\
    new_h * Z.max h w <= h * max_size <= (new_h + 1) * Z.max h w.
Proof.
  intros Hh Hw HM.
  destruct (scaled_bounds w (Z.max h w)) as [f [nw [Ef [Ew Bw]]]]; [lia | lia |].
  destruct (scaled_bounds h (Z.max h w)) as [f' [nh [Ef' [Eh Bh]]]]; [lia | lia |].
  rewrite Ef in Ef'. injection Ef' as <-.
  exists nw, nh. split; [|split; assumption].
  unfold new_size. rewrite Ef. cbn [and_then]. rewrite Ew. cbn [and_then].
  rewrite Eh. reflexivity.
Qed.

(** X1.  What the guard returns for an oversized image, when it returns
    one: both sides within [1 .. max_size], and the aspect ratio off by
    no more than the rounding of one side. *)
Lemma guard_output_bounded E img img' :
  1 <= height img -> 1 <= width img ->
  max_size < Z.max (height img) (width img) < 2 ^ 31 ->
  guard E img = Ok img' ->
  1 <= height img' <= max_size /\ 1 <= width img' <= max_size /\
  Z.abs (height img' * width img - width img' * height img)
    <= Z.max (height img) (width img).
Proof.
  intros Hh Hw HM. unfold guard.
  replace (max_size <? Z.max (height img) (width img)) with true
    by (symmetry; apply Z.ltb_lt; lia).
  destruct (new_size_bounds _ _ Hh Hw HM) as [nw [nh [Es [Bw Bh]]]].
  rewrite Es. cbn [and_then fst snd]. unfold cv2_resize.
  destruct (Z.leb_spec nw 0) as [Hnw | Hnw]; cbn [orb]; [discriminate|].
  destruct (Z.leb_spec nh 0) as [Hnh | Hnh]; [discriminate|].
  intros [= <-]. cbn [height width].
  set (M := Z.max (height img) (width img)) in *.
  set (h := height img) in *. set (w := width img) in *.
  assert (HhM : h <= M) by (unfold M; lia).
  assert (HwM : w <= M) by (unfold M; lia).
  unfold max_size in *.
  assert (Hnw4 : nw <= 4000) by nia.
  assert (Hnh4 : nh <= 4000) by nia.
  repeat split; try lia.
  assert (A1 : 4000 * (nh * w) <= nh * ((nw + 1) * M)) by nia.
  assert (A2 : nw * (nh * M) <= 4000 * (nw * h)) by nia.
  assert (A3 : 4000 * (nw * h) <= nw * ((nh + 1) * M)) by nia.
  assert (A4 : nh * (nw * M) <= 4000 * (nh * w)) by nia.
  assert (U1 : 4000 * (nh * w - nw * h) <= nh * M) by nia.
  assert (U2 : 4000 * (nw * h - nh * w) <= nw * M) by nia.
  assert (V1 : nh * w - nw * h <= h) by nia.
  assert (V2 : nw * h - nh * w <= w) by nia.
  lia.
Qed.

(** Bounds on both sides of the exact quotient pin the rounding down. *)
Lemma rounded_down_of_bounds d M n :
  0 < M -> n * M <= d * max_size <= (n + 1) * M -> rounded_down d M n.
Proof.
  intros HM [Hl Hu]. unfold rounded_down.
  destruct (Z_le_lt_eq_dec _ _ Hu) as [Hlt | Heq].
  - left. apply Z.div_unique with (r := d * max_size - n * M); lia.
  - right. rewrite Heq. rewrite Z.mod_mul, Z.div_mul by lia. lia.
Qed.

(** The spec's scenario: a 6000 x 3000 source (width x height). *)
Example new_size_scenario : new_size 3000 6000 = Ok (4000, 2000).
Proof. vm_compute. reflexivity. Qed.

(** Double rounding shows: a 4210 x 4210 image is resized to 3999 x 3999,
    since [4210 * (4000 / 4210)] is just below 4000 in binary64. *)
Example new_size_square_4210 : new_size 4210 4210 = Ok (3999, 3999).
Proof. vm_compute. reflexivity. Qed.

(** C2.  An image whose larger side is at most [max_size] (4000) passes
    the guard unchanged: same dimensions, same pixel data. *)
Theorem guard_identity E img :
  Z.max (height img) (width img) <= max_size -> guard E img = Ok img.
Proof.
  intros H. unfold guard.
  replace (max_size <? Z.max (height img) (width img)) with false
    by (symmetry; apply Z.ltb_ge; lia).
  reflexivity.
Qed.

Lemma guard_identity_witness :
  Z.max (height sample_image) (width sample_image) <= max_size /\
  guard happy_env sample_image = Ok sample_image.
Proof.
  assert (H : Z.max (height sample_image) (width sample_image) <= max_size)
    by (vm_compute; discriminate).
  split; [exact H | exact (guard_identity happy_env sample_image H)].
Defined.

(** C1.  The guard on an 8001 x 1 image (taller than [max_size], one
    pixel wide): the width scales to [int(1 * (4000 / 8001)) = 0], and
    [cv2.resize] raises on the empty target size.  No image comes out of
    the guard, whatever the collaborators are. *)
Theorem guard_thin_image_raises E :
  new_size (height thin_image) (width thin_image) = Ok (0, 4000) /\
  guard E thin_image = Raise (resize_error E).
Proof.
  assert (H : new_size (height thin_image) (width thin_image) = Ok (0, 4000))
    by (vm_compute; reflexivity).
  split; [exact H |].
  unfold guard. rewrite H.
  replace (max_size <? Z.max (height thin_image) (width thin_image)) with true
    by (vm_compute; reflexivity).
  reflexivity.
Qed.

(** C3, as stated, fails: for a 6001 x 3000 image (width x height) the
    new height is [int(3000 * (4000 / 6001)) = 1999], whereas the exact
    product 1999.67 rounds to the nearest integer 2000. *)
Lemma new_size_not_nearest :
  new_size 3000 6001 = Ok (4000, 1999) /\
  1999 <> spec_new_dim 3000 3000 6001.
Proof. split; [vm_compute; reflexivity | vm_compute; discriminate]. Qed.

(** C3, amended.  When the guard downscales an image with sides of at
    least one pixel (and below 2^31), each new dimension is the old
    dimension times [max_size / max(h, w)] rounded down to an integer,
    as [int()] truncates; when that product is a whole number the result
    is the product or one below it. *)
Theorem new_size_truncates h w :
  1 <= h -> 1 <= w -> max_size < Z.max h w < 2 ^ 31 ->
  exists new_w new_h,
    new_size h w = Ok (new_w, new_h) /\
    rounded_down w (Z.max h w) new_w /\
    rounded_down h (Z.max h w) new_h.
Proof.
  intros Hh Hw HM.
  destruct (new_size_bounds h w Hh Hw HM) as [nw [nh [E [Bw Bh]]]].
  exists nw, nh. split; [exact E |].
  assert (HM0 : 0 < Z.max h w) by (unfold max_size in HM; lia).
  split.
  - now apply rounded_down_of_bounds.
  - now apply rounded_down_of_bounds.
Qed.

Lemma new_size_truncates_witness :
  exists new_w new_h,
    new_size 3000 6001 = Ok (new_w, new_h) /\
    rounded_down 6001 (Z.max 3000 6001) new_w /\
    rounded_down 3000 (Z.max 3000 6001) new_h.
Proof.
  apply (new_size_truncates 3000 6001).
  - lia.
  - lia.
  - split; vm_compute; reflexivity.
Defined.

(** * Request validation *)

Lemma truthy_dict_get items key :
  truthy (dict_get items key) = true -> truthy (PDict items) = true.
Proof. destruct items; [discriminate | reflexivity]. Qed.

(** C10, as stated, fails: the body [[1]] is not a JSON object, yet it is
    truthy, passes the first test, and [data.get] raises AttributeError
    out of the handler. *)
Lemma list_body_raises :
  fst (upscale happy_env (Json (PList [PInt 1])) empty_world)
  = Uncaught "'list' object has no attribute 'get'" /\
  fst (upscale happy_env (Json (PList [PInt 1])) empty_world)
  <> Reply 400 (error_body "No data provided").
Proof. split; [reflexivity | discriminate]. Qed.

(** C10, amended.  For every request whose body [request.json] parses to
    a falsy value ([None] for JSON null, [false], [0], the empty string,
    [[]], [{}]) the handler replies 400 with the body
    [{"error": "No data provided"}] and leaves the world as it was: no
    line printed, no fetch, no inference, no upload, no status write, no
    file.  (A request for which [request.json] raises never reaches this
    test: see [unparsed_body_aborts].) *)
Theorem empty_body_rejected E data w :
  truthy data = false ->
  upscale E (Json data) w
  = (Reply 400 (PDict [("error", PStr "No data provided")]), w).
Proof. intros H. unfold upscale. now rewrite H. Qed.

Lemma empty_body_rejected_witness :
  truthy PNone = false /\
  upscale happy_env (Json PNone) empty_world
  = (Reply 400 (PDict [("error", PStr "No data provided")]), empty_world).
Proof.
  split; [reflexivity |].
  apply (empty_body_rejected happy_env PNone empty_world). reflexivity.
Defined.

(** When [request.json] raises (no JSON content type, or a body that
    does not parse), the exception leaves the handler at once: the
    framework answers with the exception's code, and nothing else has
    happened. *)
Lemma unparsed_body_aborts E code description w :
  upscale E (NoJson code description) w = (Aborted code description, w).
Proof. reflexivity. Qed.

(** C4, as stated, fails: in the body [{}] the requestId is missing, and
    the reply carries "No data provided", not
    "Missing requestId or imageUrl". *)
Lemma empty_object_other_message :
  dict_get [] "requestId" = PNone /\
  fst (upscale happy_env (Json (PDict [])) empty_world)
  <> Reply 400 (error_body "Missing requestId or imageUrl").
Proof. split; [reflexivity | discriminate]. Qed.

(** C4, amended.  For every request whose body is a non-empty JSON
    object in which requestId or imageUrl is missing or empty (falsy),
    the handler replies 400 with the error
    "Missing requestId or imageUrl" and leaves the world as it was: no
    fetch, no inference, no upload, no status write. *)
Theorem missing_field_rejected E items w :
  truthy (PDict items) = true ->
  truthy (dict_get items "requestId") = false \/
  truthy (dict_get items "imageUrl") = false ->
  upscale E (Json (PDict items)) w
  = (Reply 400 (error_body "Missing requestId or imageUrl"), w).
Proof.
  intros Hd Hf. unfold upscale. rewrite Hd. cbn [negb].
  destruct Hf as [-> | ->]; cbn [negb orb]; [reflexivity |].
  now rewrite orb_true_r.
Qed.

Lemma missing_field_rejected_witness :
  upscale happy_env (Json (PDict [("imageUrl", PStr "https://x/img.png")])) empty_world
  = (Reply 400 (error_body "Missing requestId or imageUrl"), empty_world).
Proof.
  apply (missing_field_rejected happy_env
           [("imageUrl", PStr "https://x/img.png")] empty_world).
  - reflexivity.
  - left. reflexivity.
Defined.

(** A request that passes both tests enters the try block. *)
Lemma upscale_valid E items w :
  truthy (dict_get items "requestId") = true ->
  truthy (dict_get items "imageUrl") = true ->
  upscale E (Json (PDict items)) w =
  match try_block E (dict_get items "requestId") (dict_get items "imageUrl")
          (dict_get items "userId") w with
  | (Ok output_url, w') => (Reply 200 (success_body output_url), w')
  | (Raise e, w') =>
      match record_failure E (dict_get items "requestId") e w' with
      | (Ok _, w'') => (Reply 500 (error_body e), w'')
      | (Raise exc, w'') => (Uncaught exc, w'')
      end
  end.
Proof.
  intros Hr Hu. unfold upscale.
  rewrite (truthy_dict_get _ _ Hr), Hr, Hu. reflexivity.
Qed.

(** * Running the try block *)

(** Writing the chunks in order appends their concatenation. *)
Lemma write_all_content name cs : forall w c,
  files w name = Some c ->
  exists w2,
    write_all name cs w = (Ok tt, w2) /\ trace w2 = trace w /\
    stdout w2 = stdout w /\
    files w2 name = Some (c ++ List.concat cs)%list /\
    forall n, n <> name -> files w2 n = files w n.
Proof.
  induction cs as [| ch rest IH]; intros w c Hc.
  - exists w. cbn [List.concat]. rewrite app_nil_r. repeat split; assumption.
  - cbn [write_all]. unfold bind, write. rewrite Hc.
    destruct (IH (set_file name (Some (c ++ ch)%list) w) (c ++ ch)%list)
      as [w2 [E [Ht [Hs [Hf Hframe]]]]].
    { cbn [set_file files]. now rewrite String.eqb_refl. }
    exists w2. rewrite E. cbn [List.concat]. rewrite app_assoc.
    repeat split; try assumption.
    intros n Hn. rewrite (Hframe n Hn). cbn [set_file files].
    apply String.eqb_neq in Hn. now rewrite Hn.
Qed.

(** The download, step by step: nothing happens when its log line cannot
    be printed; it returns a path exactly when the fetch answered without
    an error status, the name was free and the body streamed to its end;
    the file then holds the body. *)
Lemma download_run E rid url w r w1 :
  download E rid url w = (r, w1) ->
  (trace w1 = trace w \/ trace w1 = (trace w ++ [Fetch url])%list) /\
  (forall n, n <> temp_name E ".png" -> files w1 n = files w n) /\
  match r with
  | Ok p =>
      trace w1 = (trace w ++ [Fetch url])%list /\
      p = temp_name E ".png" /\ files w p = None /\
      exists response,
        requests_get E url = Ok response /\
        raise_for_status response = Ok tt /\
        stream_error response = None /\
        files w1 p = Some (List.concat (chunks response))
  | Raise _ => True
  end.
Proof.
  unfold download, bind, py_print, emit, lift.
  destruct (stdout_write E _) as [[] | e];
    [| intros [= <- <-]; repeat split; now left].
  cbn [files trace stdout].
  destruct (requests_get E url) as [response | e];
    [| intros [= <- <-]; repeat split; now right].
  destruct (raise_for_status response) as [[] | e] eqn:Hst;
    [| intros [= <- <-]; repeat split; now right].
  unfold named_temporary_file. cbn [files trace stdout].
  destruct (files w (temp_name E ".png")) as [c0 |] eqn:Hfree;
    [intros [= <- <-]; repeat split; now right |].
  set (wa := set_file _ _ _).
  destruct (write_all_content (temp_name E ".png") (chunks response) wa [])
    as [w2 [Ew [Ht [_ [Hf Hframe]]]]].
  { unfold wa. cbn [set_file files]. now rewrite String.eqb_refl. }
  rewrite Ew.
  assert (Htr : trace w2 = (trace w ++ [Fetch url])%list) by (rewrite Ht; reflexivity).
  assert (Hfr : forall n, n <> temp_name E ".png" -> files w2 n = files w n).
  { intros n Hn. rewrite (Hframe n Hn). unfold wa. cbn [set_file files].
    apply String.eqb_neq in Hn. now rewrite Hn. }
  destruct (stream_error response) as [e |] eqn:Hse; intros [= <- <-];
    (split; [now right |]); (split; [assumption |]); [exact I |].
  split; [assumption |]. split; [reflexivity |]. split; [assumption |].
  exists response. repeat split; assumption.
Qed.

(** A run that stops with an exception after the download. *)
Lemma run_stops E rid url uid w w1 w' e k img content :
  download E rid url w = (Ok (temp_name E ".png"), w1) ->
  (k <= 4)%nat ->
  trace w' = (trace w ++ firstn k (pipeline_events E rid url uid img content
                                     EmptyString false))%list ->
  (forall n, n <> temp_name E ".png" -> n <> temp_name E ".jpg" ->
             files w' n = files w n) ->
  (exists c, files w' (temp_name E ".png") = Some c) ->
  ((2 <= k)%nat ->
   exists response raw,
     requests_get E url = Ok response /\
     imread E (Some (List.concat (chunks response))) = Some raw /\
     guard E raw = Ok img) ->
  ((3 <= k)%nat ->
   exists out enc,
     enhance E img = Ok out /\ imwrite E out = Ok enc /\ content = Some enc) ->
  run_facts E rid url uid w (Raise e) w'.
Proof.
  intros Hd Hk Ht Hfr Hc H2 H3. split; [exact Hfr |].
  exists k, img, content, EmptyString, false.
  split; [lia |]. split; [exact Ht |].
  split; [exact H2 |]. split; [exact H3 |].
  split; [intros; lia |]. split; [intros; lia |].
  intros p w0 Hd'. rewrite Hd in Hd'.
  assert (Hp : p = temp_name E ".png") by congruence.
  rewrite Hp. exact Hc.
Qed.

(** The guard step changes neither files nor events, and hands on the
    guard's image. *)
Lemma limit_size_run E rid raw w r w2 :
  limit_size E rid raw w = (r, w2) ->
  files w2 = files w /\ trace w2 = trace w /\
  match r with
  | Ok img => guard E raw = Ok img
  | Raise _ => True
  end.
Proof.
  unfold limit_size, bind, lift, ret, py_print.
  destruct (guard E raw) as [img | e]; [| intros [= <- <-]; now repeat split].
  destruct (max_size <? Z.max (height raw) (width raw)).
  - destruct (stdout_write E _) as [[] | e]; intros [= <- <-]; now repeat split.
  - intros [= <- <-]. now repeat split.
Qed.

Lemma try_block_run E rid url uid w r w' :
  try_block E rid url uid w = (r, w') -> run_facts E rid url uid w r w'.
Proof.
  unfold try_block. unfold bind at 1.
  destruct (download E rid url w) as [[p | e] w1] eqn:Hd0; pose proof Hd0 as Hd;
    apply download_run in Hd; destruct Hd as [Ht [Hfr Hd]].
  2:{ intros [= <- <-]. split; [intros n Hn _; now apply Hfr |].
      destruct Ht as [Ht | Ht];
        [exists 0%nat, no_image, None, EmptyString, false
        | exists 1%nat, no_image, None, EmptyString, false];
        (split; [lia |]); cbn [firstn pipeline_events]; rewrite ?app_nil_r;
        (split; [assumption |]); repeat split; intros; try lia; congruence. }
  clear Ht. destruct Hd as [Ht [-> [Hfree [response [Hget [Hst [Hse Hc]]]]]]].
  set (pin := temp_name E ".png") in *.
  set (pout := temp_name E ".jpg") in *.
  assert (Hfr1 : forall n, n <> pin -> n <> pout -> files w1 n = files w n)
    by (intros n Hn _; now apply Hfr).
  assert (Hc1 : exists c, files w1 pin = Some c) by (eexists; exact Hc).
  unfold bind at 1.
  assert (Hdecode : decode E pin w1
                    = (match imread E (Some (List.concat (chunks response))) with
                       | Some img => Ok img
                       | None => Raise "'NoneType' object has no attribute 'shape'"
                       end, w1)).
  { unfold decode, read_file, bind, lift. now rewrite Hc. }
  rewrite Hdecode.
  destruct (imread E (Some (List.concat (chunks response)))) as [raw |] eqn:Hraw.
  2:{ intros [= <- <-].
      apply (run_stops E rid url uid w w1 w1 _ 1%nat no_image None Hd0);
        first [assumption | lia | intros; lia]. }
  unfold bind at 1.
  destruct (limit_size E rid raw w1) as [[img | e] w2] eqn:Hl;
    apply limit_size_run in Hl; destruct Hl as [Hf2 [Ht2 Hguard]].
  2:{ intros [= <- <-].
      apply (run_stops E rid url uid w w1 w2 _ 1%nat no_image None Hd0);
        rewrite ?Hf2, ?Ht2; first [assumption | lia | intros; lia]. }
  assert (Hdec : exists response0 raw0,
             requests_get E url = Ok response0 /\
             imread E (Some (List.concat (chunks response0))) = Some raw0 /\
             guard E raw0 = Ok img)
    by (exists response, raw; repeat split; assumption).
  rewrite <- Hf2 in Hfr1, Hc1, Hc. rewrite <- Ht2 in Ht.
  assert (Hfout : files w2 pout = files w1 pout) by now rewrite Hf2.
  clear Hf2 Ht2 Hdecode.
  unfold infer, encode, upload, status_update, os_remove,
    named_temporary_file, write, read_file, py_print, bind, lift, emit, ret.
  cbn [files trace stdout set_file]. fold pout.
  case_print "Upscaling image for request ".
  2:{ intros [= <- <-].
      apply (run_stops E rid url uid w w1 w2 _ 1%nat no_image None Hd0);
        first [assumption | lia | intros; lia]. }
  cbn [files trace stdout set_file].
  destruct (enhance E img) as [out | e] eqn:Hout.
  2:{ intros [= <- <-].
      apply (run_stops E rid url uid w w1 _ _ 2%nat img None Hd0);
        cbn [files trace stdout firstn pipeline_events];
        first [assumption | lia | intros; lia | intros _; exact Hdec
              | now rewrite Ht, <- app_assoc ]. }
  destruct (files w2 pout) as [c0 |] eqn:Hfree2.
  { intros [= <- <-].
    apply (run_stops E rid url uid w w1 _ _ 2%nat img None Hd0);
      cbn [files trace stdout firstn pipeline_events];
      first [assumption | lia | intros; lia | intros _; exact Hdec
            | now rewrite Ht, <- app_assoc ]. }
  assert (Hne : pin <> pout) by (intros Heq; rewrite Heq in Hc; congruence).
  assert (Hne1 : (pin =? pout)%string = false) by now apply String.eqb_neq.
  assert (Hne2 : (pout =? pin)%string = false)
    by (apply String.eqb_neq; congruence).
  assert (Hfs0 : forall (c : option bytes) n, n <> pin -> n <> pout ->
             (if (n =? pout)%string then c else files w2 n) = files w n).
  { intros c n Hn1 Hn2. rewrite (proj2 (String.eqb_neq _ _) Hn2). now apply Hfr1. }
  assert (Hcs0 : forall c : option bytes, exists c1,
             (if (pin =? pout)%string then c else files w2 pin) = Some c1).
  { intros c. rewrite Hne1. exact Hc1. }
  destruct (imwrite E out) as [enc | e] eqn:Henc.
  2:{ intros [= <- <-].
      apply (run_stops E rid url uid w w1 _ _ 2%nat img None Hd0);
        cbn [files trace stdout set_file firstn pipeline_events];
        first [assumption | lia | intros; lia | intros _; exact Hdec
              | now rewrite Ht, <- app_assoc | apply Hfs0 | apply Hcs0 ]. }
  assert (Henh : exists out0 enc0,
             enhance E img = Ok out0 /\ imwrite E out0 = Ok enc0 /\
             Some ([] ++ enc)%list = Some enc0)
    by (exists out, enc; repeat split; assumption).
  cbn [files trace stdout set_file]. rewrite !String.eqb_refl.
  cbn [files trace stdout set_file].
  assert (Hfs : forall n, n <> pin -> n <> pout ->
             (if (n =? pout)%string then Some ([] ++ enc)%list
              else if (n =? pout)%string then Some [] else files w2 n)
             = files w n).
  { intros n Hn1 Hn2. rewrite (proj2 (String.eqb_neq _ _) Hn2). now apply Hfr1. }
  assert (Hcs : exists c1,
             (if (pin =? pout)%string then Some ([] ++ enc)%list
              else if (pin =? pout)%string then Some [] else files w2 pin)
             = Some c1).
  { rewrite Hne1. exact Hc1. }
  case_print "Uploading result for request ".
  2:{ intros [= <- <-].
      apply (run_stops E rid url uid w w1 _ _ 2%nat img None Hd0);
        cbn [files trace stdout set_file firstn pipeline_events];
        first [assumption | lia | intros; lia | intros _; exact Hdec
              | now rewrite Ht, <- app_assoc | exact Hfs | exact Hcs ]. }
  cbn [files trace stdout set_file]. rewrite !String.eqb_refl.
  destruct (upload_from_filename E (bucket_name E) (blob_name E uid rid)
              (Some ([] ++ enc)%list)) as [[] | e].
  2:{ intros [= <- <-].
      apply (run_stops E rid url uid w w1 _ _ 3%nat img (Some ([] ++ enc)%list) Hd0);
        cbn [files trace stdout set_file firstn pipeline_events];
        first [assumption | lia | intros; lia | intros _; exact Hdec
              | intros _; exact Henh
              | now rewrite Ht, <- !app_assoc | exact Hfs | exact Hcs ]. }
  destruct (make_public E (bucket_name E) (blob_name E uid rid)) as [[] | e].
  2:{ intros [= <- <-].
      apply (run_stops E rid url uid w w1 _ _ 4%nat img (Some ([] ++ enc)%list) Hd0);
        cbn [files trace stdout set_file firstn pipeline_events];
        first [assumption | lia | intros; lia | intros _; exact Hdec
              | intros _; exact Henh
              | now rewrite Ht, <- !app_assoc | exact Hfs | exact Hcs ]. }
  cbn [files trace stdout set_file].
  case_print "Updating Firestore for request ".
  2:{ intros [= <- <-].
      apply (run_stops E rid url uid w w1 _ _ 4%nat img (Some ([] ++ enc)%list) Hd0);
        cbn [files trace stdout set_file firstn pipeline_events];
        first [assumption | lia | intros; lia | intros _; exact Hdec
              | intros _; exact Henh
              | now rewrite Ht, <- !app_assoc | exact Hfs | exact Hcs ]. }
  cbn [files trace stdout set_file].
  set (u := public_url E (bucket_name E) (blob_name E uid rid)).
  destruct (firestore_update E rid (completed_fields u)) as [[] | e] eqn:Hup.
  2:{ intros [= <- <-]. split; [exact Hfs |].
      exists 5%nat, img, (Some ([] ++ enc)%list), u, false.
      split; [lia |]. cbn [files trace stdout set_file firstn pipeline_events is_ok].
      split; [now rewrite Ht, <- !app_assoc |].
      split; [intros _; exact Hdec |]. split; [intros _; exact Henh |].
      split; [intros _; rewrite Hup; now split |].
      split; [intros _; exact Hup |].
      intros p w0 Hd'. rewrite Hd0 in Hd'.
      assert (Hp : p = pin) by congruence. rewrite Hp. exact Hcs. }
  cbn [files trace stdout set_file is_ok]. rewrite Hne1, Hc.
  cbn [files trace stdout set_file]. rewrite Hne2, !String.eqb_refl.
  intros [= <- <-]. split.
  { intros n Hn1 Hn2. cbn [files set_file].
    rewrite !(proj2 (String.eqb_neq n pout) Hn2), (proj2 (String.eqb_neq n pin) Hn1).
    now apply Hfr1. }
  exists 5%nat, img, (Some ([] ++ enc)%list), u, true.
  split; [lia |]. cbn [files trace stdout set_file firstn pipeline_events].
  split; [now rewrite Ht, <- !app_assoc |].
  split; [intros _; exact Hdec |]. split; [intros _; exact Henh |].
  split; [intros _; rewrite Hup; now split |].
  split; [reflexivity |]. split; [reflexivity |]. split; [reflexivity |].
  intros n.
  destruct (String.eqb_spec n pout) as [-> | Hn1].
  - symmetry. rewrite <- (Hfr pout) by congruence. now rewrite <- Hfout.
  - destruct (String.eqb_spec n pin) as [-> | Hn2]; [now rewrite Hfree |].
    now apply Hfr1.
Qed.

(** The except branch: when its line is printed, the failed update is
    issued and whatever it raises is dropped; when the line cannot be
    printed, that exception is raised and no update is issued. *)
Lemma record_failure_run E rid e w :
  record_failure E rid e w =
  match stdout_write E ("Error processing request " ++ py_str E rid ++ ": " ++ e) with
  | Ok _ =>
      (Ok tt,
       {| files := files w;
          trace := (trace w ++
                    [StatusUpdate rid (failed_fields e)
                       (is_ok (firestore_update E rid (failed_fields e)))])%list;
          stdout := (stdout w ++
                     [("Error processing request " ++ py_str E rid ++ ": " ++ e)%string])%list |})
  | Raise exc => (Raise exc, w)
  end.
Proof.
  unfold record_failure, bind, py_print, swallow, status_update.
  destruct (stdout_write E _) as [[] | exc]; reflexivity.
Qed.

(** * The failure path *)

(** C5, as stated, fails: 300 is not a success status, yet
    [raise_for_status] raises for 4xx and 5xx codes only; the body of the
    300 answer is decoded and upscaled, the status record is set to
    [completed] and the reply is 200. *)
Lemma redirect_status_completes :
  requests_get choices_env (PStr "https://x/img.png") = Ok choices_response /\
  status_code choices_response = 300 /\
  fst (upscale choices_env (Json full_request) empty_world)
  = Reply 200
      (PDict [("success", PBool true);
              ("outputUrl",
               PStr "https://storage.googleapis.com/formlab.firebasestorage.app/users/u1/upscaled/r1.jpg")]) /\
  status_events (trace (snd (upscale choices_env (Json full_request) empty_world)))
  = [StatusUpdate (PStr "r1")
       [("status", FText "completed");
        ("outputUrl",
         FText "https://storage.googleapis.com/formlab.firebasestorage.app/users/u1/upscaled/r1.jpg");
        ("updatedAt", FServerTimestamp)] true].
Proof. repeat split; vm_compute; reflexivity. Qed.

(** C5, amended.  When the image fetch answers with an error status (a
    4xx or 5xx code, for which [raise_for_status] raises) and the two log
    lines of such a run can be printed ("Downloading image ..." before
    the fetch, "Error processing request ..." in the except branch), the
    run consists of the fetch and one status update
    [{status: "failed", error: text, updatedAt: SERVER_TIMESTAMP}], where
    [text] is the text of the HTTP error, and the reply is 500 with the
    body [{"error": text}]; no file is created. *)
Theorem fetch_error_recorded E items w response :
  truthy (dict_get items "requestId") = true ->
  truthy (dict_get items "imageUrl") = true ->
  stdout_write E ("Downloading image for request "
                  ++ py_str E (dict_get items "requestId") ++ "...") = Ok tt ->
  requests_get E (dict_get items "imageUrl") = Ok response ->
  400 <= status_code response < 600 ->
  stdout_write E ("Error processing request "
                  ++ py_str E (dict_get items "requestId") ++ ": "
                  ++ http_error_text response) = Ok tt ->
  upscale E (Json (PDict items)) w =
  (Reply 500 (PDict [("error", PStr (http_error_text response))]),
   {| files := files w;
      trace := (trace w ++
                [Fetch (dict_get items "imageUrl");
                 StatusUpdate (dict_get items "requestId")
                   [("status", FText "failed");
                    ("error", FText (http_error_text response));
                    ("updatedAt", FServerTimestamp)]
                   (is_ok (firestore_update E (dict_get items "requestId")
                             [("status", FText "failed");
                              ("error", FText (http_error_text response));
                              ("updatedAt", FServerTimestamp)]))])%list;
      stdout := (stdout w ++
                 [("Downloading image for request "
                   ++ py_str E (dict_get items "requestId") ++ "...")%string;
                  ("Error processing request "
                   ++ py_str E (dict_get items "requestId") ++ ": "
                   ++ http_error_text response)%string])%list |}).
Proof.
  intros Hr Hu Hp1 Hget Hcode Hp2. rewrite upscale_valid by assumption.
  unfold try_block, download, bind, py_print, emit, lift. rewrite Hp1, Hget.
  unfold raise_for_status.
  replace (400 <=? status_code response) with true by (symmetry; apply Z.leb_le; lia).
  replace (status_code response <? 600) with true by (symmetry; apply Z.ltb_lt; lia).
  cbn [andb]. rewrite record_failure_run, Hp2. cbn [files trace stdout].
  unfold error_body, failed_fields. now rewrite <- !app_assoc.
Qed.

Lemma fetch_error_recorded_witness :
  upscale offline_env
    (Json (PDict [("requestId", PStr "r1"); ("imageUrl", PStr "https://x/img.png");
                  ("userId", PStr "u1")])) empty_world =
  (Reply 500 (PDict [("error", PStr (http_error_text not_found_response))]),
   {| files := files empty_world;
      trace := (trace empty_world ++
                [Fetch (PStr "https://x/img.png");
                 StatusUpdate (PStr "r1")
                   [("status", FText "failed");
                    ("error", FText (http_error_text not_found_response));
                    ("updatedAt", FServerTimestamp)]
                   (is_ok (firestore_update offline_env (PStr "r1")
                             [("status", FText "failed");
                              ("error", FText (http_error_text not_found_response));
                              ("updatedAt", FServerTimestamp)]))])%list;
      stdout := (stdout empty_world ++
                 [("Downloading image for request "
                   ++ py_str offline_env (PStr "r1") ++ "...")%string;
                  ("Error processing request "
                   ++ py_str offline_env (PStr "r1") ++ ": "
                   ++ http_error_text not_found_response)%string])%list |}).
Proof.
  apply (fetch_error_recorded offline_env
           [("requestId", PStr "r1"); ("imageUrl", PStr "https://x/img.png");
            ("userId", PStr "u1")] empty_world not_found_response).
  - reflexivity.
  - reflexivity.
  - reflexivity.
  - reflexivity.
  - split; vm_compute; [discriminate | reflexivity].
  - reflexivity.
Defined.

(** C6.  When a stage of the try block raises [e], and the handler then
    issues a status update that the store refuses (its call raises), the
    second exception is dropped: the reply is still 500 with the body
    [{"error": e}], the text of the stage's exception; the refused update
    is the one setting [status = failed] with [e] as [error], and no file
    is touched after the failure. *)
Theorem failed_write_swallowed E items w e w1 fields :
  truthy (dict_get items "requestId") = true ->
  truthy (dict_get items "imageUrl") = true ->
  try_block E (dict_get items "requestId") (dict_get items "imageUrl")
    (dict_get items "userId") w = (Raise e, w1) ->
  trace (snd (upscale E (Json (PDict items)) w))
  = (trace w1 ++ [StatusUpdate (dict_get items "requestId") fields false])%list ->
  fst (upscale E (Json (PDict items)) w) = Reply 500 (PDict [("error", PStr e)]) /\
  fields = [("status", FText "failed"); ("error", FText e);
            ("updatedAt", FServerTimestamp)] /\
  (exists e2, firestore_update E (dict_get items "requestId") fields = Raise e2) /\
  files (snd (upscale E (Json (PDict items)) w)) = files w1.
Proof.
  intros Hr Hu Htry. rewrite upscale_valid by assumption. rewrite Htry.
  rewrite record_failure_run.
  destruct (stdout_write E _) as [[] | exc]; cbn [fst snd trace files].
  - intros Ht. apply app_inv_head in Ht. injection Ht as Hf Hacc.
    unfold failed_fields in Hf. rewrite <- Hf.
    split; [reflexivity |]. split; [reflexivity |]. split; [| reflexivity].
    unfold failed_fields in Hacc.
    destruct (firestore_update E _ _) as [[] | e2]; [discriminate |].
    now exists e2.
  - intros Ht. exfalso. rewrite <- (app_nil_r (trace w1)) in Ht at 1.
    apply app_inv_head in Ht. discriminate.
Qed.

Lemma failed_write_swallowed_witness :
  fst (upscale offline_env
         (Json (PDict [("requestId", PStr "r1"); ("imageUrl", PStr "https://x/img.png");
                       ("userId", PStr "u1")])) empty_world)
  = Reply 500 (PDict [("error", PStr (http_error_text not_found_response))]) /\
  [("status", FText "failed"); ("error", FText (http_error_text not_found_response));
   ("updatedAt", FServerTimestamp)]
  = [("status", FText "failed"); ("error", FText (http_error_text not_found_response));
     ("updatedAt", FServerTimestamp)] /\
  (exists e2,
     firestore_update offline_env (PStr "r1")
       [("status", FText "failed"); ("error", FText (http_error_text not_found_response));
        ("updatedAt", FServerTimestamp)] = Raise e2) /\
  files (snd (upscale offline_env
                (Json (PDict [("requestId", PStr "r1");
                              ("imageUrl", PStr "https://x/img.png");
                              ("userId", PStr "u1")])) empty_world))
  = files {| files := files empty_world;
             trace := [Fetch (PStr "https://x/img.png")];
             stdout := ["Downloading image for request r1..."] |}.
Proof.
  apply (failed_write_swallowed offline_env
           [("requestId", PStr "r1"); ("imageUrl", PStr "https://x/img.png");
            ("userId", PStr "u1")] empty_world
           (http_error_text not_found_response)
           {| files := files empty_world;
              trace := [Fetch (PStr "https://x/img.png")];
              stdout := ["Downloading image for request r1..."] |}
           [("status", FText "failed");
            ("error", FText (http_error_text not_found_response));
            ("updatedAt", FServerTimestamp)]).
  - reflexivity.
  - reflexivity.
  - reflexivity.
  - reflexivity.
Defined.

(** * The status record, the blob path and the temporary files *)

(** The status-store calls among the first [k] pipeline events. *)
Lemma status_events_prefix E rid url uid img content u acc k :
  (k <= 5)%nat ->
  status_events (firstn k (pipeline_events E rid url uid img content u acc))
  = if (5 <=? k)%nat then [StatusUpdate rid (completed_fields u) acc] else [].
Proof.
  intros _. destruct k as [| [| [| [| [| [| k]]]]]]; reflexivity.
Qed.

(** The uploads among the first [k] pipeline events. *)
Lemma uploaded_names_prefix E rid url uid img content u acc k :
  (k <= 5)%nat ->
  uploaded_names (firstn k (pipeline_events E rid url uid img content u acc))
  = if (3 <=? k)%nat then [blob_name E uid rid] else [].
Proof.
  intros _. destruct k as [| [| [| [| [| [| k]]]]]]; reflexivity.
Qed.

Lemma accepted_writes_status evs :
  accepted_writes evs = accepted_writes (status_events evs).
Proof.
  unfold accepted_writes, status_events.
  induction evs as [| ev rest IH]; [reflexivity |].
  cbn [filter]. destruct ev as [| | | | ? ? []|]; cbn [is_status_event filter];
    now rewrite IH.
Qed.

Lemma status_events_app evs1 evs2 :
  status_events (evs1 ++ evs2) = (status_events evs1 ++ status_events evs2)%list.
Proof. unfold status_events. apply filter_app. Qed.

Lemma upscale_success E items w body :
  fst (upscale E (Json (PDict items)) w) = Reply 200 body ->
  exists u,
    try_block E (dict_get items "requestId") (dict_get items "imageUrl")
      (dict_get items "userId") w = (Ok u, snd (upscale E (Json (PDict items)) w)) /\
    body = success_body u.
Proof.
  unfold upscale.
  destruct (truthy (PDict items)); cbn [negb]; [| discriminate].
  destruct (truthy (dict_get items "requestId")); cbn [negb orb]; [| discriminate].
  destruct (truthy (dict_get items "imageUrl")); cbn [negb]; [| discriminate].
  destruct (try_block _ _ _ _ w) as [[u | e] w1]; cbn [fst snd].
  - intros [= <-]. now exists u.
  - destruct (record_failure _ _ _ w1) as [[[] | exc] w2]; discriminate.
Qed.

(** C7, as stated, fails: when the fetch fails and the status store is
    unreachable, the run ends without any accepted write, so the record
    is not mutated once but not at all. *)
Lemma no_write_when_store_down :
  fst (upscale offline_env (Json full_request) empty_world)
  = Reply 500 (error_body (http_error_text not_found_response)) /\
  List.length
    (accepted_writes (trace (snd (upscale offline_env (Json full_request) empty_world))))
  <> 1%nat.
Proof. split; [reflexivity | vm_compute; discriminate]. Qed.

(** C7, amended.  Within a single run that passes validation the handler
    never deletes the status record, every status update it issues sets a
    terminal state, and the store accepts at most one of them.  The run
    replies 200 exactly with one accepted [completed] update (with
    outputUrl).  Otherwise the try block raised: if the error line of the
    except branch is printed, the run replies 500 after one [failed]
    update (with error), preceded by a [completed] update only if the
    store rejected that one; if the line cannot be printed, that
    exception leaves the handler and no [failed] update is issued.  No
    run has an accepted [completed] update followed by a [failed] one. *)
Theorem status_written_once E items w :
  truthy (dict_get items "requestId") = true ->
  truthy (dict_get items "imageUrl") = true ->
  exists evs,
    trace (snd (upscale E (Json (PDict items)) w)) = (trace w ++ evs)%list /\
    (List.length (accepted_writes evs) <= 1)%nat /\
    ((exists u,
        fst (upscale E (Json (PDict items)) w)
        = Reply 200 (PDict [("success", PBool true); ("outputUrl", PStr u)]) /\
        status_events evs
        = [StatusUpdate (dict_get items "requestId")
             [("status", FText "completed"); ("outputUrl", FText u);
              ("updatedAt", FServerTimestamp)] true])
     \/
     (exists e acc,
        fst (upscale E (Json (PDict items)) w) = Reply 500 (PDict [("error", PStr e)]) /\
        status_events evs
        = [StatusUpdate (dict_get items "requestId")
             [("status", FText "failed"); ("error", FText e);
              ("updatedAt", FServerTimestamp)] acc])
     \/
     (exists u e acc,
        fst (upscale E (Json (PDict items)) w) = Reply 500 (PDict [("error", PStr e)]) /\
        status_events evs
        = [StatusUpdate (dict_get items "requestId")
             [("status", FText "completed"); ("outputUrl", FText u);
              ("updatedAt", FServerTimestamp)] false;
           StatusUpdate (dict_get items "requestId")
             [("status", FText "failed"); ("error", FText e);
              ("updatedAt", FServerTimestamp)] acc])
     \/
     (exists exc,
        fst (upscale E (Json (PDict items)) w) = Uncaught exc /\
        (status_events evs = [] \/
         exists u,
           status_events evs
           = [StatusUpdate (dict_get items "requestId")
                [("status", FText "completed"); ("outputUrl", FText u);
                 ("updatedAt", FServerTimestamp)] false]))).
Proof.
  intros Hr Hu. rewrite upscale_valid by assumption.
  destruct (try_block _ _ _ _ w) as [[u' | e] w1] eqn:Htry;
    apply try_block_run in Htry;
    destruct Htry as [_ [k [img [content [u [acc [Hk [Ht [_ [_ [H5 Hres]]]]]]]]]]];
    pose proof (status_events_prefix E (dict_get items "requestId")
                  (dict_get items "imageUrl") (dict_get items "userId")
                  img content u acc k Hk) as Hs.
  - destruct Hres as [-> [-> [-> _]]]. cbn [fst snd]. eexists. split; [exact Ht |].
    split; [rewrite accepted_writes_status, Hs; cbn; lia |].
    left. exists u. split; [reflexivity | exact Hs].
  - destruct Hres as [Hrej _].
    assert (Hacc : k = 5%nat -> acc = false).
    { intros Hk5. destruct (H5 Hk5) as [_ ->]. now rewrite (Hrej Hk5). }
    rewrite record_failure_run.
    destruct (stdout_write E _) as [[] | exc]; cbn [fst snd trace].
    + set (acc2 := is_ok _). eexists.
      split; [rewrite Ht, <- app_assoc; reflexivity |].
      rewrite accepted_writes_status, status_events_app, Hs.
      destruct (Nat.leb_spec 5 k) as [Hk5 | Hk5].
      * rewrite Hacc by lia.
        split; [destruct acc2; cbn; lia |].
        right; right; left. exists u, e, acc2. split; reflexivity.
      * split; [destruct acc2; cbn; lia |].
        right; left. exists e, acc2. split; reflexivity.
    + eexists. split; [exact Ht |].
      rewrite accepted_writes_status, Hs.
      destruct (Nat.leb_spec 5 k) as [Hk5 | Hk5].
      * rewrite Hacc by lia. split; [cbn; lia |].
        right; right; right. exists exc. split; [reflexivity |].
        right. now exists u.
      * split; [cbn; lia |].
        right; right; right. exists exc. split; [reflexivity |]. now left.
Qed.

Lemma status_written_once_witness :
  exists evs,
    trace (snd (upscale happy_env
                  (Json (PDict [("requestId", PStr "r1");
                                ("imageUrl", PStr "https://x/img.png");
                                ("userId", PStr "u1")])) empty_world))
    = (trace empty_world ++ evs)%list /\
    (List.length (accepted_writes evs) <= 1)%nat /\
    ((exists u,
        fst (upscale happy_env
               (Json (PDict [("requestId", PStr "r1");
                             ("imageUrl", PStr "https://x/img.png");
                             ("userId", PStr "u1")])) empty_world)
        = Reply 200 (PDict [("success", PBool true); ("outputUrl", PStr u)]) /\
        status_events evs
        = [StatusUpdate (PStr "r1")
             [("status", FText "completed"); ("outputUrl", FText u);
              ("updatedAt", FServerTimestamp)] true])
     \/
     (exists e acc,
        fst (upscale happy_env
               (Json (PDict [("requestId", PStr "r1");
                             ("imageUrl", PStr "https://x/img.png");
                             ("userId", PStr "u1")])) empty_world)
        = Reply 500 (PDict [("error", PStr e)]) /\
        status_events evs
        = [StatusUpdate (PStr "r1")
             [("status", FText "failed"); ("error", FText e);
              ("updatedAt", FServerTimestamp)] acc])
     \/
     (exists u e acc,
        fst (upscale happy_env
               (Json (PDict [("requestId", PStr "r1");
                             ("imageUrl", PStr "https://x/img.png");
                             ("userId", PStr "u1")])) empty_world)
        = Reply 500 (PDict [("error", PStr e)]) /\
        status_events evs
        = [StatusUpdate (PStr "r1")
             [("status", FText "completed"); ("outputUrl", FText u);
              ("updatedAt", FServerTimestamp)] false;
           StatusUpdate (PStr "r1")
             [("status", FText "failed"); ("error", FText e);
              ("updatedAt", FServerTimestamp)] acc])
     \/
     (exists exc,
        fst (upscale happy_env
               (Json (PDict [("requestId", PStr "r1");
                             ("imageUrl", PStr "https://x/img.png");
                             ("userId", PStr "u1")])) empty_world)
        = Uncaught exc /\
        (status_events evs = [] \/
         exists u,
           status_events evs
           = [StatusUpdate (PStr "r1")
                [("status", FText "completed"); ("outputUrl", FText u);
                 ("updatedAt", FServerTimestamp)] false]))).
Proof.
  apply (status_written_once happy_env
           [("requestId", PStr "r1"); ("imageUrl", PStr "https://x/img.png");
            ("userId", PStr "u1")] empty_world).
  - reflexivity.
  - reflexivity.
Defined.

(** C8, as stated, fails: a request without userId is stored under
    [users/None/upscaled/r1.jpg] (the f-string renders [None]), not under
    [users//upscaled/r1.jpg]. *)
Lemma absent_user_renders_None :
  dict_get [("requestId", PStr "r1"); ("imageUrl", PStr "https://x/img.png")] "userId"
  = PNone /\
  uploaded_names (trace (snd (upscale happy_env (Json anonymous_request) empty_world)))
  = ["users/None/upscaled/r1.jpg"] /\
  uploaded_names (trace (snd (upscale happy_env (Json anonymous_request) empty_world)))
  <> ["users//upscaled/r1.jpg"].
Proof.
  split; [reflexivity |].
  split; [vm_compute; reflexivity | vm_compute; discriminate].
Qed.

(** C8, amended.  Every successful run uploads exactly one blob, at the
    path [users/{userId}/upscaled/{requestId}.jpg] in which each field is
    rendered by [str]: a string as itself, an absent userId as [None].
    The path is a function of userId and requestId alone. *)
Theorem blob_path_of_success E items w body :
  fst (upscale E (Json (PDict items)) w) = Reply 200 body ->
  exists evs,
    trace (snd (upscale E (Json (PDict items)) w)) = (trace w ++ evs)%list /\
    uploaded_names evs
    = ["users/" ++ py_str E (dict_get items "userId") ++ "/upscaled/"
       ++ py_str E (dict_get items "requestId") ++ ".jpg"] /\
    (dict_get items "userId" = PNone ->
     py_str E (dict_get items "userId") = "None") /\
    (forall s, dict_get items "userId" = PStr s ->
               py_str E (dict_get items "userId") = s).
Proof.
  intros H. destruct (upscale_success _ _ _ _ H) as [u' [Htry _]].
  apply try_block_run in Htry.
  destruct Htry as [_ [k [img [content [u [acc [Hk [Ht [_ [_ [_ Hres]]]]]]]]]]].
  destruct Hres as [-> _].
  eexists. split; [exact Ht |]. split; [reflexivity |].
  split; [now intros -> | now intros s ->].
Qed.

Lemma blob_path_of_success_witness :
  exists evs,
    trace (snd (upscale happy_env
                  (Json (PDict [("requestId", PStr "r1");
                                ("imageUrl", PStr "https://x/img.png");
                                ("userId", PStr "u1")])) empty_world))
    = (trace empty_world ++ evs)%list /\
    uploaded_names evs
    = ["users/" ++ py_str happy_env (PStr "u1") ++ "/upscaled/"
       ++ py_str happy_env (PStr "r1") ++ ".jpg"] /\
    (PStr "u1" = PNone -> py_str happy_env (PStr "u1") = "None") /\
    (forall s, PStr "u1" = PStr s -> py_str happy_env (PStr "u1") = s).
Proof.
  apply (blob_path_of_success happy_env
           [("requestId", PStr "r1"); ("imageUrl", PStr "https://x/img.png");
            ("userId", PStr "u1")] empty_world
           (success_body
              "https://storage.googleapis.com/formlab.firebasestorage.app/users/u1/upscaled/r1.jpg")).
  reflexivity.
Defined.

(** X11.  A successful run leaves the temporary files as it found them:
    both files it created are removed again, and no other file changed. *)
Lemma success_releases_files E items w body :
  fst (upscale E (Json (PDict items)) w) = Reply 200 body ->
  forall n, files (snd (upscale E (Json (PDict items)) w)) n = files w n.
Proof.
  intros H. destruct (upscale_success _ _ _ _ H) as [u' [Htry _]].
  apply try_block_run in Htry.
  destruct Htry as [_ [k [img [content [u [acc [_ [_ [_ [_ [_ Hres]]]]]]]]]]].
  now destruct Hres as [_ [_ [_ Hf]]].
Qed.

(** X12.  A run that fails after the download leaves the downloaded
    file on disk when the handler returns. *)
Lemma failure_keeps_download E items w e p w1 :
  truthy (dict_get items "requestId") = true ->
  truthy (dict_get items "imageUrl") = true ->
  download E (dict_get items "requestId") (dict_get items "imageUrl") w = (Ok p, w1) ->
  fst (upscale E (Json (PDict items)) w) = Reply 500 (error_body e) ->
  exists c, files (snd (upscale E (Json (PDict items)) w)) p = Some c.
Proof.
  intros Hr Hu Hd. rewrite upscale_valid by assumption.
  destruct (try_block _ _ _ _ w) as [[u' | e'] w2] eqn:Htry; cbn [fst snd];
    [discriminate |].
  apply try_block_run in Htry.
  destruct Htry as [_ [k [img [content [u [acc [_ [_ [_ [_ [_ [_ Hkeep]]]]]]]]]]]].
  rewrite record_failure_run.
  destruct (stdout_write E _) as [[] | exc]; cbn [fst snd files]; [| discriminate].
  intros _. exact (Hkeep p w1 Hd).
Qed.

(** C9.  A run whose download succeeds and whose bytes do not decode:
    the handler replies 500, the failure is recorded, and the downloaded
    temporary file is still on disk when the handler returns; the only
    [os.remove] calls are at the end of the success path. *)
Theorem failed_run_keeps_input_file :
  fst (upscale garbage_env (Json full_request) empty_world)
  = Reply 500 (error_body "'NoneType' object has no attribute 'shape'") /\
  files (snd (upscale garbage_env (Json full_request) empty_world))
    (temp_name garbage_env ".png")
  = Some [Byte.x89; Byte.x50; Byte.x4e; Byte.x47].
Proof. split; vm_compute; reflexivity. Qed.

(** * More on the size guard *)

(** The guard either hands the image on or resizes it to [new_size]. *)
Lemma guard_cases E img img' :
  guard E img = Ok img' ->
  (Z.max (height img) (width img) <= max_size /\ img' = img) \/
  (max_size < Z.max (height img) (width img) /\
   exists new_w new_h,
     new_size (height img) (width img) = Ok (new_w, new_h) /\
     1 <= new_w /\ 1 <= new_h /\
     img' = {| height := new_h; width := new_w;
               pixels := resample E img new_w new_h |}).
Proof.
  unfold guard.
  destruct (Z.ltb_spec max_size (Z.max (height img) (width img))) as [Hbig | Hsmall].
  - destruct (new_size (height img) (width img)) as [[nw nh] | e]; cbn [and_then fst snd];
      [| discriminate].
    unfold cv2_resize.
    destruct (Z.leb_spec nw 0) as [Hnw | Hnw]; cbn [orb]; [discriminate |].
    destruct (Z.leb_spec nh 0) as [Hnh | Hnh]; [discriminate |].
    intros [= <-]. right. split; [assumption |].
    exists nw, nh. repeat split; lia.
  - intros [= <-]. left. now split.
Qed.

(** X2.  The guard never enlarges: the image it returns is no higher and
    no wider than the one it got, and strictly smaller on both sides
    whenever it resized. *)
Theorem guard_never_enlarges E img img' :
  1 <= height img -> 1 <= width img ->
  Z.max (height img) (width img) < 2 ^ 31 ->
  guard E img = Ok img' ->
  height img' <= height img /\ width img' <= width img /\
  (max_size < Z.max (height img) (width img) ->
   height img' < height img /\ width img' < width img).
Proof.
  intros Hh Hw HM Hg.
  destruct (guard_cases _ _ _ Hg) as [[Hs ->] | [Hb [nw [nh [Es [Hnw [Hnh ->]]]]]]].
  - repeat split; lia.
  - destruct (new_size_bounds _ _ Hh Hw (conj Hb HM)) as [nw' [nh' [Es' [Bw Bh]]]].
    rewrite Es in Es'. injection Es' as <- <-.
    cbn [height width]. unfold max_size in *.
    set (M := Z.max (height img) (width img)) in *.
    assert (nh < height img) by nia.
    assert (nw < width img) by nia.
    repeat split; lia.
Qed.

(** X3.  After a resize the longer side is [max_size] or [max_size - 1]
    pixels: 4000, or 3999 where the product falls just short of 4000 in
    binary64 (as for 4210 x 4210). *)
Theorem guard_long_side E img img' :
  1 <= height img -> 1 <= width img ->
  max_size < Z.max (height img) (width img) < 2 ^ 31 ->
  guard E img = Ok img' ->
  Z.max (height img') (width img') = max_size \/
  Z.max (height img') (width img') = max_size - 1.
Proof.
  intros Hh Hw HM Hg.
  destruct (guard_cases _ _ _ Hg) as [[Hs ->] | [Hb [nw [nh [Es [Hnw [Hnh ->]]]]]]];
    [lia |].
  destruct (new_size_bounds _ _ Hh Hw HM) as [nw' [nh' [Es' [Bw Bh]]]].
  rewrite Es in Es'. injection Es' as <- <-.
  cbn [height width]. unfold max_size in *.
  set (M := Z.max (height img) (width img)) in *.
  assert (HhM : height img <= M) by (unfold M; lia).
  assert (HwM : width img <= M) by (unfold M; lia).
  assert (Hnw4 : nw <= 4000) by nia.
  assert (Hnh4 : nh <= 4000) by nia.
  assert (Hlong : height img = M \/ width img = M) by (unfold M; lia).
  destruct Hlong as [Heq | Heq].
  - rewrite Heq in Bh. assert (3999 <= nh) by nia. lia.
  - rewrite Heq in Bw. assert (3999 <= nw) by nia. lia.
Qed.

(** X4.  The guard keeps the orientation: an image no higher than wide
    stays so, and likewise an image no wider than high. *)
Theorem guard_keeps_orientation E img img' :
  1 <= height img -> 1 <= width img ->
  Z.max (height img) (width img) < 2 ^ 31 ->
  guard E img = Ok img' ->
  (height img <= width img -> height img' <= width img') /\
  (width img <= height img -> width img' <= height img').
Proof.
  intros Hh Hw HM Hg.
  destruct (guard_cases _ _ _ Hg) as [[Hs ->] | [Hb [nw [nh [Es [Hnw [Hnh ->]]]]]]];
    [split; lia |].
  destruct (new_size_bounds _ _ Hh Hw (conj Hb HM)) as [nw' [nh' [Es' [Bw Bh]]]].
  pose proof Es as Es0.
  rewrite Es in Es'. injection Es' as <- <-.
  cbn [height width]. unfold max_size in *.
  set (M := Z.max (height img) (width img)) in *.
  assert (HM0 : 4000 < M) by lia.
  split; intros Hle.
  - destruct (Z.eq_dec (height img) (width img)) as [Heq | Hneq].
    + unfold new_size in Es0. rewrite Heq in Es0.
      destruct (PyFloat.truediv max_size (Z.max (width img) (width img))) as [f | e];
        cbn [and_then] in Es0; [| discriminate].
      destruct (scaled (width img) f) as [n | e]; cbn [and_then] in Es0; [| discriminate].
      injection Es0 as <- <-. lia.
    + assert (Hlt : height img < width img) by lia.
      destruct (Z_le_gt_dec nh nw) as [Hok | Hbad]; [exact Hok | exfalso].
      assert (nw + 1 <= nh) by lia.
      assert ((nw + 1) * M <= nh * M) by nia.
      assert (4000 * height img < 4000 * width img) by lia.
      lia.
  - destruct (Z.eq_dec (height img) (width img)) as [Heq | Hneq].
    + unfold new_size in Es0. rewrite Heq in Es0.
      destruct (PyFloat.truediv max_size (Z.max (width img) (width img))) as [f | e];
        cbn [and_then] in Es0; [| discriminate].
      destruct (scaled (width img) f) as [n | e]; cbn [and_then] in Es0; [| discriminate].
      injection Es0 as <- <-. lia.
    + assert (Hlt : width img < height img) by lia.
      destruct (Z_le_gt_dec nw nh) as [Hok | Hbad]; [exact Hok | exfalso].
      assert (nh + 1 <= nw) by lia.
      assert ((nh + 1) * M <= nw * M) by nia.
      assert (4000 * width img < 4000 * height img) by lia.
      lia.
Qed.

(** X5.  Where the guard fails on an oversized image: it raises the
    resize error when the shorter side times [max_size] is below the
    longer side (an aspect ratio beyond 4000 : 1), and it returns an
    image when that product is above the longer side.  On the boundary
    both happen: 8000 x 2 is resized, 196000 x 49 is not. *)
Theorem guard_aspect_limit E img :
  1 <= height img -> 1 <= width img ->
  max_size < Z.max (height img) (width img) < 2 ^ 31 ->
  (Z.min (height img) (width img) * max_size < Z.max (height img) (width img) ->
   guard E img = Raise (resize_error E)) /\
  (Z.max (height img) (width img) < Z.min (height img) (width img) * max_size ->
   exists img', guard E img = Ok img').
Proof.
  intros Hh Hw HM.
  destruct (new_size_bounds _ _ Hh Hw HM) as [nw [nh [Es [Bw Bh]]]].
  unfold guard.
  replace (max_size <? Z.max (height img) (width img)) with true
    by (symmetry; apply Z.ltb_lt; lia).
  rewrite Es. cbn [and_then fst snd]. unfold cv2_resize, max_size in *.
  set (M := Z.max (height img) (width img)) in *.
  split; intros Hr.
  - assert (Hz : nw <= 0 \/ nh <= 0).
    { destruct (Z.min_spec (height img) (width img)) as [[_ Hm] | [_ Hm]];
        rewrite Hm in Hr; [right | left]; nia. }
    destruct Hz as [Hz | Hz].
    + replace (nw <=? 0) with true by (symmetry; apply Z.leb_le; lia). reflexivity.
    + replace (nh <=? 0) with true by (symmetry; apply Z.leb_le; lia).
      now rewrite orb_true_r.
  - assert (Hmh : M < height img * 4000) by lia.
    assert (Hmw : M < width img * 4000) by lia.
    assert (1 <= nw) by nia.
    assert (1 <= nh) by nia.
    replace (nw <=? 0) with false by (symmetry; apply Z.leb_gt; lia).
    replace (nh <=? 0) with false by (symmetry; apply Z.leb_gt; lia).
    eexists. reflexivity.
Qed.

(** The guard on the sample image. *)
Lemma guard_wide_image E : guard E wide_image = Ok (wide_image_resized E).
Proof.
  assert (H : new_size (height wide_image) (width wide_image) = Ok (4000, 1999))
    by (vm_compute; reflexivity).
  unfold guard. rewrite H. reflexivity.
Qed.

(** The boundary of X5, both ways: 8000 x 2 and 196000 x 49 (width x
    height) have the shorter side times [max_size] equal to the longer. *)
Example new_size_boundary_kept : new_size 2 8000 = Ok (4000, 1).
Proof. vm_compute. reflexivity. Qed.

Example new_size_boundary_lost : new_size 49 196000 = Ok (3999, 0).
Proof. vm_compute. reflexivity. Qed.

Lemma wide_image_range :
  1 <= height wide_image /\ 1 <= width wide_image /\
  max_size < Z.max (height wide_image) (width wide_image) < 2 ^ 31.
Proof. vm_compute. repeat split; discriminate. Qed.

Lemma guard_output_bounded_witness :
  1 <= height (wide_image_resized happy_env) <= max_size /\
  1 <= width (wide_image_resized happy_env) <= max_size /\
  Z.abs (height (wide_image_resized happy_env) * width wide_image
         - width (wide_image_resized happy_env) * height wide_image)
  <= Z.max (height wide_image) (width wide_image).
Proof.
  apply (guard_output_bounded happy_env wide_image (wide_image_resized happy_env)).
  - apply wide_image_range.
  - apply wide_image_range.
  - apply wide_image_range.
  - apply guard_wide_image.
Defined.

Lemma guard_never_enlarges_witness :
  height (wide_image_resized happy_env) <= height wide_image /\
  width (wide_image_resized happy_env) <= width wide_image /\
  (max_size < Z.max (height wide_image) (width wide_image) ->
   height (wide_image_resized happy_env) < height wide_image /\
   width (wide_image_resized happy_env) < width wide_image).
Proof.
  apply (guard_never_enlarges happy_env wide_image (wide_image_resized happy_env)).
  - apply wide_image_range.
  - apply wide_image_range.
  - apply wide_image_range.
  - apply guard_wide_image.
Defined.

Lemma guard_long_side_witness :
  Z.max (height (wide_image_resized happy_env)) (width (wide_image_resized happy_env))
  = max_size \/
  Z.max (height (wide_image_resized happy_env)) (width (wide_image_resized happy_env))
  = max_size - 1.
Proof.
  apply (guard_long_side happy_env wide_image (wide_image_resized happy_env)).
  - apply wide_image_range.
  - apply wide_image_range.
  - apply wide_image_range.
  - apply guard_wide_image.
Defined.

Lemma guard_keeps_orientation_witness :
  (height wide_image <= width wide_image ->
   height (wide_image_resized happy_env) <= width (wide_image_resized happy_env)) /\
  (width wide_image <= height wide_image ->
   width (wide_image_resized happy_env) <= height (wide_image_resized happy_env)).
Proof.
  apply (guard_keeps_orientation happy_env wide_image (wide_image_resized happy_env)).
  - apply wide_image_range.
  - apply wide_image_range.
  - apply wide_image_range.
  - apply guard_wide_image.
Defined.

Lemma guard_aspect_limit_witness :
  (Z.min (height thin_image) (width thin_image) * max_size
   < Z.max (height thin_image) (width thin_image) ->
   guard happy_env thin_image = Raise (resize_error happy_env)) /\
  (Z.max (height thin_image) (width thin_image)
   < Z.min (height thin_image) (width thin_image) * max_size ->
   exists img', guard happy_env thin_image = Ok img').
Proof.
  apply (guard_aspect_limit happy_env thin_image).
  - unfold thin_image; cbn [height]; lia.
  - unfold thin_image; cbn [width]; lia.
  - unfold thin_image, max_size; cbn [height width]. lia.
Defined.

(** * More on a run *)

(** The guard's output never has a side above [max_size], for decoded
    images of positive, machine-sized dimensions. *)
Lemma guard_output_within E raw img :
  1 <= height raw -> 1 <= width raw ->
  Z.max (height raw) (width raw) < 2 ^ 31 ->
  guard E raw = Ok img ->
  Z.max (height img) (width img) <= max_size.
Proof.
  intros Hh Hw HM. unfold guard.
  destruct (Z.ltb_spec max_size (Z.max (height raw) (width raw))) as [Hbig | Hsmall];
    [| intros [= <-]; exact Hsmall].
  destruct (new_size_bounds _ _ Hh Hw (conj Hbig HM)) as [nw [nh [Es [Bw Bh]]]].
  rewrite Es. cbn [and_then fst snd]. unfold cv2_resize.
  destruct ((nw <=? 0) || (nh <=? 0)); [discriminate |].
  intros [= <-]. cbn [height width]. unfold max_size in *.
  set (M := Z.max (height raw) (width raw)) in *.
  assert (height raw <= M) by (unfold M; lia).
  assert (width raw <= M) by (unfold M; lia).
  assert (nw <= 4000) by nia.
  assert (nh <= 4000) by nia.
  lia.
Qed.

(** X6.  The handler's own replies carry 200, 400 or 500.  An exception
    leaves the handler in three ways only: [request.json] raises, before
    anything else; [data.get] raises on a truthy body that is not an
    object, before any effect; or the try block raised and the error line
    of the except branch cannot be printed, and then no failed status
    update is issued. *)
Theorem handler_answers E req w :
  match fst (upscale E req w) with
  | Reply code _ => code = 200 \/ code = 400 \/ code = 500
  | Aborted code description =>
      req = NoJson code description /\ snd (upscale E req w) = w
  | Uncaught exc =>
      (exists data,
         req = Json data /\ truthy data = true /\
         (forall items, data <> PDict items) /\
         exc = no_get data /\ snd (upscale E req w) = w)
      \/
      (exists items e w1,
         req = Json (PDict items) /\
         try_block E (dict_get items "requestId") (dict_get items "imageUrl")
           (dict_get items "userId") w = (Raise e, w1) /\
         stdout_write E ("Error processing request "
                         ++ py_str E (dict_get items "requestId") ++ ": " ++ e)
         = Raise exc /\
         snd (upscale E req w) = w1)
  end.
Proof.
  destruct req as [data | code description]; [| now split].
  unfold upscale.
  destruct (truthy data) eqn:Ht; cbn [negb fst]; [| lia].
  destruct data as [| b | n | x | s | l | items];
    try (cbn [fst snd]; left; eexists; split; [reflexivity |];
         split; [exact Ht |]; split; [intros; discriminate |]; split; reflexivity).
  destruct (negb (truthy (dict_get items "requestId"))
            || negb (truthy (dict_get items "imageUrl"))); cbn [fst]; [lia |].
  destruct (try_block _ _ _ _ w) as [[u | e] w1] eqn:Htry; cbn [fst]; [lia |].
  rewrite record_failure_run.
  destruct (stdout_write E _) as [[] | exc] eqn:Hp; cbn [fst snd]; [lia |].
  right. exists items, e, w1. repeat split; assumption.
Qed.

(** X7.  The stages of a validated run happen in order and stop at the
    first failure: the events of the try block are an initial segment of
    fetch, inference, upload, make-public, completed status update.  The
    reply is 200 exactly when all five happened and the store accepted
    the update.  Otherwise either the run ends with the failed status
    update carrying the error text of the 500 reply, or, when the error
    line cannot be printed, an exception leaves the handler and nothing
    follows the initial segment. *)
Theorem stages_in_order E items w :
  truthy (dict_get items "requestId") = true ->
  truthy (dict_get items "imageUrl") = true ->
  exists k img content u acc,
    (k <= 5)%nat /\
    ((fst (upscale E (Json (PDict items)) w) = Reply 200 (success_body u) /\
      k = 5%nat /\ acc = true /\
      trace (snd (upscale E (Json (PDict items)) w))
      = (trace w ++
         pipeline_events E (dict_get items "requestId") (dict_get items "imageUrl")
           (dict_get items "userId") img content u acc)%list)
     \/
     (exists e acc2,
        fst (upscale E (Json (PDict items)) w)
        = Reply 500 (PDict [("error", PStr e)]) /\
        (k = 5%nat -> acc = false) /\
        trace (snd (upscale E (Json (PDict items)) w))
        = (trace w ++
           firstn k
             (pipeline_events E (dict_get items "requestId")
                (dict_get items "imageUrl") (dict_get items "userId")
                img content u acc)
           ++ [StatusUpdate (dict_get items "requestId")
                 [("status", FText "failed"); ("error", FText e);
                  ("updatedAt", FServerTimestamp)] acc2])%list)
     \/
     (exists exc,
        fst (upscale E (Json (PDict items)) w) = Uncaught exc /\
        (k = 5%nat -> acc = false) /\
        trace (snd (upscale E (Json (PDict items)) w))
        = (trace w ++
           firstn k
             (pipeline_events E (dict_get items "requestId")
                (dict_get items "imageUrl") (dict_get items "userId")
                img content u acc))%list)).
Proof.
  intros Hr Hu. rewrite upscale_valid by assumption.
  destruct (try_block _ _ _ _ w) as [[u' | e] w1] eqn:Htry;
    apply try_block_run in Htry;
    destruct Htry as [_ [k [img [content [u [acc [Hk [Ht [_ [_ [H5 Hres]]]]]]]]]]];
    exists k, img, content, u, acc; (split; [exact Hk |]).
  - destruct Hres as [-> [-> [-> _]]]. left. repeat split. exact Ht.
  - destruct Hres as [Hrej _].
    assert (Hacc : k = 5%nat -> acc = false).
    { intros Hk5. destruct (H5 Hk5) as [_ ->]. now rewrite (Hrej Hk5). }
    right. rewrite record_failure_run.
    destruct (stdout_write E _) as [[] | exc]; cbn [fst snd trace].
    + left. eexists e, _. split; [reflexivity |]. split; [exact Hacc |].
      now rewrite Ht, <- app_assoc.
    + right. exists exc. split; [reflexivity |]. split; [exact Hacc | exact Ht].
Qed.

(** X8.  In a run that replies 200, the uploaded bytes are the JPEG
    encoding of the upscaler's output on the guarded decoding of exactly
    the downloaded body, and the outputUrl of the reply is the blob's
    public URL, the same URL written by the completed status update. *)
Theorem success_data_flow E items w body :
  fst (upscale E (Json (PDict items)) w) = Reply 200 body ->
  exists response raw img out enc,
    requests_get E (dict_get items "imageUrl") = Ok response /\
    imread E (Some (List.concat (chunks response))) = Some raw /\
    guard E raw = Ok img /\
    enhance E img = Ok out /\
    imwrite E out = Ok enc /\
    body = success_body
             (public_url E (bucket_name E)
                (blob_name E (dict_get items "userId") (dict_get items "requestId"))) /\
    trace (snd (upscale E (Json (PDict items)) w))
    = (trace w ++
       pipeline_events E (dict_get items "requestId") (dict_get items "imageUrl")
         (dict_get items "userId") img (Some enc)
         (public_url E (bucket_name E)
            (blob_name E (dict_get items "userId") (dict_get items "requestId")))
         true)%list.
Proof.
  intros H. destruct (upscale_success _ _ _ _ H) as [u' [Htry ->]].
  apply try_block_run in Htry.
  destruct Htry as [_ [k [img [content [u [acc [Hk [Ht [H2 [H3 [H5 Hres]]]]]]]]]]].
  destruct Hres as [-> [-> [-> _]]].
  destruct (H2 ltac:(lia)) as [response [raw [Hget [Hraw Hg]]]].
  destruct (H3 ltac:(lia)) as [out [enc [Hout [Henc ->]]]].
  destruct (H5 eq_refl) as [Hu _].
  exists response, raw, img, out, enc.
  rewrite <- Hu. repeat split; assumption.
Qed.

(** An inference event among the first [k] pipeline events is the second
    one. *)
Lemma infer_in_prefix E rid url uid img content u acc k img' :
  In (Infer img') (firstn k (pipeline_events E rid url uid img content u acc)) ->
  (2 <= k)%nat /\ img' = img.
Proof.
  unfold pipeline_events.
  destruct k as [| [| k]]; cbn [firstn In].
  - intros [].
  - intros [H | []]. discriminate.
  - intros [H | [H | Hin]]; [discriminate | |].
    + injection H as <-. split; [lia | reflexivity].
    + exfalso. destruct k as [| [| [| k]]]; cbn [firstn In] in Hin;
        repeat (destruct Hin as [Hin | Hin]; [discriminate |]);
        rewrite ?firstn_nil in Hin; exact Hin.
Qed.

(** X9.  The upscaler is never called on an image with a side above
    [max_size], provided decoded images have sides of at least one pixel
    and below 2^31. *)
Theorem inference_input_bounded E req w :
  (forall content raw,
     imread E content = Some raw ->
     1 <= height raw /\ 1 <= width raw /\ Z.max (height raw) (width raw) < 2 ^ 31) ->
  exists evs,
    trace (snd (upscale E req w)) = (trace w ++ evs)%list /\
    forall img, In (Infer img) evs ->
                Z.max (height img) (width img) <= max_size.
Proof.
  intros Hdec.
  assert (Hnone : exists evs,
             trace w = (trace w ++ evs)%list /\
             forall img, In (Infer img) evs ->
                         Z.max (height img) (width img) <= max_size).
  { exists []. rewrite app_nil_r. split; [reflexivity | intros img []]. }
  destruct req as [data | code description]; [| exact Hnone].
  unfold upscale.
  destruct (truthy data); cbn [negb]; [| exact Hnone].
  destruct data as [| b | n | x | s | l | items]; try exact Hnone.
  destruct (negb (truthy (dict_get items "requestId"))
            || negb (truthy (dict_get items "imageUrl"))); [exact Hnone |].
  destruct (try_block _ _ _ _ w) as [[u' | e] w1] eqn:Htry;
    apply try_block_run in Htry;
    destruct Htry as [_ [k [img [content [u [acc [Hk [Ht [H2 _]]]]]]]]].
  - cbn [snd]. eexists. split; [exact Ht |].
    intros img' Hin.
    destruct (infer_in_prefix _ _ _ _ _ _ _ _ _ _ Hin) as [Hk2 ->].
    destruct (H2 Hk2) as [response [raw [_ [Hraw Hg]]]].
    destruct (Hdec _ _ Hraw) as [Hh [Hw HM]].
    now apply (guard_output_within E raw img).
  - assert (Hpre : forall img', In (Infer img')
                (firstn k (pipeline_events E (dict_get items "requestId")
                             (dict_get items "imageUrl") (dict_get items "userId")
                             img content u acc)) ->
              Z.max (height img') (width img') <= max_size).
    { intros img' Hin.
      destruct (infer_in_prefix _ _ _ _ _ _ _ _ _ _ Hin) as [Hk2 ->].
      destruct (H2 Hk2) as [response [raw [_ [Hraw Hg]]]].
      destruct (Hdec _ _ Hraw) as [Hh [Hw HM]].
      now apply (guard_output_within E raw img). }
    rewrite record_failure_run.
    destruct (stdout_write E _) as [[] | exc]; cbn [snd trace].
    + eexists. split; [rewrite Ht, <- app_assoc; reflexivity |].
      intros img' Hin. apply in_app_or in Hin.
      destruct Hin as [Hin | [Hin | []]]; [now apply Hpre | discriminate].
    + eexists. split; [exact Ht | exact Hpre].
Qed.

(** X10.  Whatever the request and however the run ends, the handler
    changes no local file other than its two temporary files. *)
Theorem other_files_untouched E req w n :
  n <> temp_name E ".png" -> n <> temp_name E ".jpg" ->
  files (snd (upscale E req w)) n = files w n.
Proof.
  intros Hn1 Hn2. destruct req as [data | code description]; [| reflexivity].
  unfold upscale.
  destruct (truthy data); cbn [negb snd]; [| reflexivity].
  destruct data as [| b | k | x | s | l | items]; try reflexivity.
  destruct (negb (truthy (dict_get items "requestId"))
            || negb (truthy (dict_get items "imageUrl"))); [reflexivity |].
  destruct (try_block _ _ _ _ w) as [[u' | e] w1] eqn:Htry;
    apply try_block_run in Htry; destruct Htry as [Hfr _].
  - cbn [snd]. now apply Hfr.
  - rewrite record_failure_run.
    destruct (stdout_write E _) as [[] | exc]; cbn [snd files]; now apply Hfr.
Qed.

(** A download whose line is printed, whose fetch answers without an
    error status, whose file name is free and whose body streams to its
    end returns the path of a file holding the body. *)
Lemma download_ok E rid url w response :
  stdout_write E ("Downloading image for request " ++ py_str E rid ++ "...") = Ok tt ->
  requests_get E url = Ok response ->
  raise_for_status response = Ok tt ->
  stream_error response = None ->
  files w (temp_name E ".png") = None ->
  exists w1,
    download E rid url w = (Ok (temp_name E ".png"), w1) /\
    trace w1 = (trace w ++ [Fetch url])%list /\
    files w1 (temp_name E ".png") = Some (List.concat (chunks response)).
Proof.
  intros Hp Hget Hst Hse Hfree.
  unfold download, bind, py_print, emit, lift.
  rewrite Hp, Hget, Hst. unfold named_temporary_file. cbn [files trace stdout].
  rewrite Hfree.
  set (wa := set_file _ _ _).
  destruct (write_all_content (temp_name E ".png") (chunks response) wa [])
    as [w2 [Ew [Ht [_ [Hc _]]]]].
  { unfold wa. cbn [set_file files]. now rewrite String.eqb_refl. }
  rewrite Ew, Hse. exists w2. unfold ret.
  split; [reflexivity |]. split; [rewrite Ht; reflexivity | exact Hc].
Qed.

(** X13.  When the body downloads but [cv2.imread] cannot decode it, and
    the two log lines of such a run can be printed, the handler replies
    500 with the text of the AttributeError, the run consists of the
    fetch and the failed status update with that text, and the downloaded
    bytes remain in the temporary file. *)
Theorem undecodable_download E items w response :
  truthy (dict_get items "requestId") = true ->
  truthy (dict_get items "imageUrl") = true ->
  stdout_write E ("Downloading image for request "
                  ++ py_str E (dict_get items "requestId") ++ "...") = Ok tt ->
  requests_get E (dict_get items "imageUrl") = Ok response ->
  raise_for_status response = Ok tt ->
  stream_error response = None ->
  files w (temp_name E ".png") = None ->
  imread E (Some (List.concat (chunks response))) = None ->
  stdout_write E ("Error processing request "
                  ++ py_str E (dict_get items "requestId") ++ ": "
                  ++ "'NoneType' object has no attribute 'shape'") = Ok tt ->
  fst (upscale E (Json (PDict items)) w)
  = Reply 500 (PDict [("error", PStr "'NoneType' object has no attribute 'shape'")]) /\
  (exists acc,
     trace (snd (upscale E (Json (PDict items)) w))
     = (trace w ++
        [Fetch (dict_get items "imageUrl");
         StatusUpdate (dict_get items "requestId")
           [("status", FText "failed");
            ("error", FText "'NoneType' object has no attribute 'shape'");
            ("updatedAt", FServerTimestamp)] acc])%list) /\
  files (snd (upscale E (Json (PDict items)) w)) (temp_name E ".png")
  = Some (List.concat (chunks response)).
Proof.
  intros Hr Hu Hp1 Hget Hst Hse Hfree Hraw Hp2.
  destruct (download_ok E (dict_get items "requestId") (dict_get items "imageUrl")
              w response Hp1 Hget Hst Hse Hfree) as [w1 [Hd [Ht Hc]]].
  assert (Htry : try_block E (dict_get items "requestId") (dict_get items "imageUrl")
                   (dict_get items "userId") w
                 = (Raise "'NoneType' object has no attribute 'shape'", w1)).
  { unfold try_block. unfold bind at 1. rewrite Hd.
    unfold decode, bind, read_file, lift. now rewrite Hc, Hraw. }
  rewrite upscale_valid by assumption. rewrite Htry.
  rewrite record_failure_run, Hp2. cbn [fst snd trace files].
  split; [reflexivity |]. split; [| exact Hc].
  eexists. rewrite Ht, <- app_assoc. reflexivity.
Qed.

(** X14.  A validated request whose log lines cannot be printed is
    dropped: the first [print] of the try block raises before the fetch,
    the [print] of the except branch raises in turn, outside the inner
    [try], and that exception leaves the handler; nothing is fetched and
    no status update is issued. *)
Theorem unprintable_request_dropped E items w exc1 exc2 :
  truthy (dict_get items "requestId") = true ->
  truthy (dict_get items "imageUrl") = true ->
  stdout_write E ("Downloading image for request "
                  ++ py_str E (dict_get items "requestId") ++ "...") = Raise exc1 ->
  stdout_write E ("Error processing request "
                  ++ py_str E (dict_get items "requestId") ++ ": " ++ exc1)
  = Raise exc2 ->
  upscale E (Json (PDict items)) w = (Uncaught exc2, w).
Proof.
  intros Hr Hu Hp1 Hp2. rewrite upscale_valid by assumption.
  unfold try_block, download, bind, py_print. rewrite Hp1.
  now rewrite record_failure_run, Hp2.
Qed.

Lemma stages_in_order_witness :
  exists k img content u acc,
    (k <= 5)%nat /\
    ((fst (upscale happy_env (Json full_request) empty_world)
      = Reply 200 (success_body u) /\
      k = 5%nat /\ acc = true /\
      trace (snd (upscale happy_env (Json full_request) empty_world))
      = (trace empty_world ++
         pipeline_events happy_env (PStr "r1") (PStr "https://x/img.png")
           (PStr "u1") img content u acc)%list)
     \/
     (exists e acc2,
        fst (upscale happy_env (Json full_request) empty_world)
        = Reply 500 (PDict [("error", PStr e)]) /\
        (k = 5%nat -> acc = false) /\
        trace (snd (upscale happy_env (Json full_request) empty_world))
        = (trace empty_world ++
           firstn k
             (pipeline_events happy_env (PStr "r1") (PStr "https://x/img.png")
                (PStr "u1") img content u acc)
           ++ [StatusUpdate (PStr "r1")
                 [("status", FText "failed"); ("error", FText e);
                  ("updatedAt", FServerTimestamp)] acc2])%list)
     \/
     (exists exc,
        fst (upscale happy_env (Json full_request) empty_world) = Uncaught exc /\
        (k = 5%nat -> acc = false) /\
        trace (snd (upscale happy_env (Json full_request) empty_world))
        = (trace empty_world ++
           firstn k
             (pipeline_events happy_env (PStr "r1") (PStr "https://x/img.png")
                (PStr "u1") img content u acc))%list)).
Proof.
  apply (stages_in_order happy_env
           [("requestId", PStr "r1"); ("imageUrl", PStr "https://x/img.png");
            ("userId", PStr "u1")] empty_world).
  - reflexivity.
  - reflexivity.
Defined.

Lemma success_data_flow_witness :
  exists response raw img out enc,
    requests_get happy_env (PStr "https://x/img.png") = Ok response /\
    imread happy_env (Some (List.concat (chunks response))) = Some raw /\
    guard happy_env raw = Ok img /\
    enhance happy_env img = Ok out /\
    imwrite happy_env out = Ok enc /\
    success_body
      "https://storage.googleapis.com/formlab.firebasestorage.app/users/u1/upscaled/r1.jpg"
    = success_body
        (public_url happy_env (bucket_name happy_env)
           (blob_name happy_env (PStr "u1") (PStr "r1"))) /\
    trace (snd (upscale happy_env (Json full_request) empty_world))
    = (trace empty_world ++
       pipeline_events happy_env (PStr "r1") (PStr "https://x/img.png")
         (PStr "u1") img (Some enc)
         (public_url happy_env (bucket_name happy_env)
            (blob_name happy_env (PStr "u1") (PStr "r1")))
         true)%list.
Proof.
  apply (success_data_flow happy_env
           [("requestId", PStr "r1"); ("imageUrl", PStr "https://x/img.png");
            ("userId", PStr "u1")] empty_world
           (success_body
              "https://storage.googleapis.com/formlab.firebasestorage.app/users/u1/upscaled/r1.jpg")).
  reflexivity.
Defined.

Lemma happy_env_decodes_small :
  forall content raw,
    imread happy_env content = Some raw ->
    1 <= height raw /\ 1 <= width raw /\ Z.max (height raw) (width raw) < 2 ^ 31.
Proof.
  intros content raw H. unfold happy_env, sample_env in H. cbn [imread] in H.
  destruct content as [[| b l] |]; try discriminate.
  injection H as <-. vm_compute. repeat split; discriminate.
Defined.

Lemma inference_input_bounded_witness :
  exists evs,
    trace (snd (upscale happy_env (Json full_request) empty_world))
    = (trace empty_world ++ evs)%list /\
    forall img, In (Infer img) evs ->
                Z.max (height img) (width img) <= max_size.
Proof.
  apply (inference_input_bounded happy_env (Json full_request) empty_world).
  exact happy_env_decodes_small.
Defined.

Lemma other_files_untouched_witness :
  files (snd (upscale happy_env (Json full_request) empty_world)) "/var/data/keep.bin"
  = files empty_world "/var/data/keep.bin".
Proof.
  apply (other_files_untouched happy_env (Json full_request) empty_world
           "/var/data/keep.bin").
  - intros H. vm_compute in H. discriminate H.
  - intros H. vm_compute in H. discriminate H.
Defined.

Lemma success_releases_files_witness :
  files (snd (upscale happy_env (Json full_request) empty_world))
    (temp_name happy_env ".png")
  = files empty_world (temp_name happy_env ".png").
Proof.
  apply (success_releases_files happy_env
           [("requestId", PStr "r1"); ("imageUrl", PStr "https://x/img.png");
            ("userId", PStr "u1")] empty_world
           (success_body
              "https://storage.googleapis.com/formlab.firebasestorage.app/users/u1/upscaled/r1.jpg")).
  reflexivity.
Defined.

Lemma failure_keeps_download_witness :
  exists c,
    files (snd (upscale garbage_env (Json full_request) empty_world))
      (temp_name garbage_env ".png") = Some c.
Proof.
  apply (failure_keeps_download garbage_env
           [("requestId", PStr "r1"); ("imageUrl", PStr "https://x/img.png");
            ("userId", PStr "u1")] empty_world
           "'NoneType' object has no attribute 'shape'"
           (temp_name garbage_env ".png")
           (snd (download garbage_env (PStr "r1") (PStr "https://x/img.png")
                   empty_world))).
  - reflexivity.
  - reflexivity.
  - reflexivity.
  - reflexivity.
Defined.

Lemma undecodable_download_witness :
  fst (upscale garbage_env (Json full_request) empty_world)
  = Reply 500 (PDict [("error", PStr "'NoneType' object has no attribute 'shape'")]) /\
  (exists acc,
     trace (snd (upscale garbage_env (Json full_request) empty_world))
     = (trace empty_world ++
        [Fetch (PStr "https://x/img.png");
         StatusUpdate (PStr "r1")
           [("status", FText "failed");
            ("error", FText "'NoneType' object has no attribute 'shape'");
            ("updatedAt", FServerTimestamp)] acc])%list) /\
  files (snd (upscale garbage_env (Json full_request) empty_world))
    (temp_name garbage_env ".png")
  = Some (List.concat (chunks png_response)).
Proof.
  apply (undecodable_download garbage_env
           [("requestId", PStr "r1"); ("imageUrl", PStr "https://x/img.png");
            ("userId", PStr "u1")] empty_world png_response).
  - reflexivity.
  - reflexivity.
  - reflexivity.
  - reflexivity.
  - reflexivity.
  - reflexivity.
  - reflexivity.
  - reflexivity.
  - reflexivity.
Defined.

Lemma unprintable_request_dropped_witness :
  upscale mute_env (Json full_request) empty_world
  = (Uncaught "I/O operation on closed file.", empty_world).
Proof.
  apply (unprintable_request_dropped mute_env
           [("requestId", PStr "r1"); ("imageUrl", PStr "https://x/img.png");
            ("userId", PStr "u1")] empty_world
           "I/O operation on closed file." "I/O operation on closed file.").
  - reflexivity.
  - reflexivity.
  - reflexivity.
  - reflexivity.
Defined.
